(** * Dashboard overview: derived metrics of src/pages/DashboardOverview.tsx

    A shallow embedding of the aggregation code of the [DashboardOverview]
    component (course counts by status, status distribution, upcoming
    courses, payment summary) and of its [loadStats] effect, followed by the
    properties of that code.

    Conventions of the embedding:
    - an optional field [x?: T] is an [option T], [None] being [undefined];
    - a JavaScript string is a [string]; [===] on strings is [String.eqb];
    - an array is a [list]; [.length] is [length]; [.filter] is [filter];
    - a JavaScript number that is computed with [/] and [*] is a binary64
      [float] of the kernel ([PrimFloat]), counts are [nat];
    - [date-fns] and [String.prototype.localeCompare] are outside the
      repository: they are parameters of the sections that use them. *)

From Stdlib Require Import String Ascii Bool Arith ZArith Lia.
From Stdlib Require Import List Sorted Permutation OrdersEx RelationClasses.
From Stdlib Require Import Uint63 PrimFloat FloatOps SpecFloat.
From Stdlib Require Import DecimalString.
Import ListNotations.

Local Open Scope string_scope.
Local Open Scope list_scope.

(* ================================================================= *)
(** ** JavaScript values used by the component *)

Module Js.

(** [x === lit] for [x : string | undefined] and a string literal. *)
Definition strict_eq (x : option string) (lit : string) : bool :=
  match x with
  | Some s => String.eqb s lit
  | None => false
  end.

(** [x === true] for [x : boolean | undefined]. *)
Definition is_true (x : option bool) : bool :=
  match x with
  | Some true => true
  | _ => false
  end.

(** [!x] for [x : boolean | undefined]: [undefined] and [false] are falsy. *)
Definition not_bool (x : option bool) : bool :=
  match x with
  | Some true => false
  | _ => true
  end.

(** [x ?? d]. *)
Definition nullish {A : Type} (x : option A) (d : A) : A :=
  match x with
  | Some v => v
  | None => d
  end.

(** [arr.slice(0, n)]. *)
Definition slice0 {A : Type} (n : nat) (arr : list A) : list A := firstn n arr.

(** A [Date]: a time value in milliseconds, or the Invalid Date. *)
Inductive Date : Type :=
| InvalidDate
| TimeValue (ms : Z).

(** [isAfter(date, dateToCompare)] of date-fns compares the two time
    values with [>]; a comparison with [NaN] (Invalid Date) is false. *)
Definition isAfter (date dateToCompare : Date) : bool :=
  match date, dateToCompare with
  | TimeValue a, TimeValue b => (b <? a)%Z
  | _, _ => false
  end.

End Js.

(* ================================================================= *)
(** ** Entities ([@/types/app]) *)

(** Only the fields the component reads are modelled.  [preis] is read by the
    rendering of a row only and is left out. *)

Module Kurse.
Record Fields : Type := mkFields {
  titel : option string;
  status : option string;
  startdatum : option string
}.
Record t : Type := mk {
  record_id : string;
  fields : Fields
}.
End Kurse.

Module Anmeldungen.
Record Fields : Type := mkFields {
  bezahlt : option bool
}.
Record t : Type := mk {
  record_id : string;
  fields : Fields
}.
End Anmeldungen.

Definition Kurs : Type := Kurse.t.
Definition Anmeldung : Type := Anmeldungen.t.

Definition status_of (k : Kurs) : option string := Kurse.status (Kurse.fields k).
Definition startdatum_of (k : Kurs) : option string := Kurse.startdatum (Kurse.fields k).
Definition bezahlt_of (a : Anmeldung) : option bool := Anmeldungen.bezahlt (Anmeldungen.fields a).

(* ================================================================= *)
(** ** Counts by status (lines 95-96 and 104-105) *)

(** [kurse.filter(k => k.fields.status === 'aktiv').length] *)
Definition aktiveKurse (kurse : list Kurs) : nat :=
  length (filter (fun k => Js.strict_eq (status_of k) "aktiv") kurse).

(** [kurse.filter(k => k.fields.status === 'geplant').length] *)
Definition geplanteKurse (kurse : list Kurs) : nat :=
  length (filter (fun k => Js.strict_eq (status_of k) "geplant") kurse).

(** [kurse.filter(k => k.fields.status === 'abgeschlossen').length] *)
Definition abgeschlosseneKurse (kurse : list Kurs) : nat :=
  length (filter (fun k => Js.strict_eq (status_of k) "abgeschlossen") kurse).

(** [kurse.filter(k => k.fields.status === 'abgesagt').length] *)
Definition abgesagteKurse (kurse : list Kurs) : nat :=
  length (filter (fun k => Js.strict_eq (status_of k) "abgesagt") kurse).

(** The four statuses the component knows, in display order. *)
Definition knownStatuses : list string :=
  ["geplant"; "aktiv"; "abgeschlossen"; "abgesagt"].

(* ================================================================= *)
(** ** Status distribution (lines 101-106) *)

Record Bucket : Type := mkBucket {
  name : string;
  value : nat
}.

Definition statusBuckets (kurse : list Kurs) : list Bucket :=
  [ {| name := "Geplant"; value := geplanteKurse kurse |};
    {| name := "Aktiv"; value := aktiveKurse kurse |};
    {| name := "Abgeschlossen"; value := abgeschlosseneKurse kurse |};
    {| name := "Abgesagt"; value := abgesagteKurse kurse |} ].

(** [[ ... ].filter(d => d.value > 0)] *)
Definition statusData (kurse : list Kurs) : list Bucket :=
  filter (fun d => (0 <? value d)%nat) (statusBuckets kurse).

(** The labels of the chart, in the order of the array literal. *)
Definition statusLabels : list string :=
  ["Geplant"; "Aktiv"; "Abgeschlossen"; "Abgesagt"].

(* ================================================================= *)
(** ** Payment counts (lines 97-98) *)

(** [anmeldungen.filter(a => a.fields.bezahlt === true).length] *)
Definition bezahltCount (anmeldungen : list Anmeldung) : nat :=
  length (filter (fun a => Js.is_true (bezahlt_of a)) anmeldungen).

(** [anmeldungen.filter(a => !a.fields.bezahlt).length] *)
Definition offenCount (anmeldungen : list Anmeldung) : nat :=
  length (filter (fun a => Js.not_bool (bezahlt_of a)) anmeldungen).

(* ================================================================= *)
(** ** Payment rate (lines 259 and 284-288) *)

Module Number.

(** The Number value of an array length or of a count.  Array lengths are
    below [2^32], where the conversion is exact. *)
Definition of_nat (n : nat) : float :=
  PrimFloat.of_uint63 (Uint63.of_Z (Z.of_nat n)).

(** [Math.round(x)]: the integer closest to [x], the larger one when two
    are equally close, that is [floor (x + 1/2)] computed without rounding
    on the exact value [(-1)^s * m * 2^e] of [x].  [None] stands for the
    results that are not integers ([NaN], [Infinity] and [-Infinity]). *)
Definition Math_round (x : float) : option Z :=
  match Prim2SF x with
  | S754_zero _ => Some 0%Z
  | S754_finite s m e =>
      let n := if s then Z.neg m else Z.pos m in
      if (0 <=? e)%Z then Some (n * 2 ^ e)%Z
      else Some ((2 * n + 2 ^ (- e)) / 2 ^ (1 - e))%Z
  | S754_infinity _ => None
  | S754_nan => None
  end.

End Number.

(** [Math.round((bezahltCount / anmeldungen.length) * 100)] *)
Definition zahlungsquote (anmeldungen : list Anmeldung) : option Z :=
  Number.Math_round
    (PrimFloat.mul
       (PrimFloat.div (Number.of_nat (bezahltCount anmeldungen))
                      (Number.of_nat (length anmeldungen)))
       100%float).

(** The text of the rate tile: [`${...}%`] or the dash. *)
Inductive QuoteText : Type :=
| Percent (rate : option Z)
| Dash.

(** [anmeldungen.length > 0 ? `${Math.round(...)}%` : '—'] *)
Definition quoteText (anmeldungen : list Anmeldung) : QuoteText :=
  if (0 <? length anmeldungen)%nat then Percent (zahlungsquote anmeldungen)
  else Dash.

(** The three tiles of the payment summary. *)
Record PaymentTiles : Type := mkTiles {
  tile_bezahlt : nat;
  tile_offen : nat;
  tile_quote : QuoteText
}.

(** [{anmeldungen.length > 0 && ( ... )}]: the block is rendered for a
    non-empty collection only. *)
Definition paymentSummary (anmeldungen : list Anmeldung) : option PaymentTiles :=
  if (0 <? length anmeldungen)%nat then
    Some {| tile_bezahlt := bezahltCount anmeldungen;
            tile_offen := offenCount anmeldungen;
            tile_quote := quoteText anmeldungen |}
  else None.

(** Round-half-up of the exact quotient [100 * paid / total]:
    [floor (100 * paid / total + 1/2)]. *)
Definition round_half_up_percent (paid total : nat) : Z :=
  ((200 * Z.of_nat paid + Z.of_nat total) / (2 * Z.of_nat total))%Z.

Definition anm (id : string) (b : option bool) : Anmeldung :=
  Anmeldungen.mk id (Anmeldungen.mkFields b).

(** A collection of [total] registrations of which the first [paid] are paid. *)
Definition registrations (paid total : nat) : list Anmeldung :=
  repeat (anm "a" (Some true)) paid ++ repeat (anm "a" (Some false)) (total - paid).

(* ================================================================= *)
(** ** [Array.prototype.sort] *)

(** [arr.sort(comparefn)] is a stable sort: with a consistent comparison
    function the result is the one permutation of [arr] that is ordered by
    [comparefn] and keeps tied elements in their order in [arr].  It is
    modelled by the stable insertion sort below, which walks [arr] from the
    right and puts each element before the first one that does not precede
    it. *)

Module Array.
Section Sort.
Context {A : Type}.
Variable comparefn : A -> A -> Z.

Fixpoint insert (x : A) (sorted : list A) : list A :=
  match sorted with
  | [] => [x]
  | y :: rest =>
      if (comparefn x y <=? 0)%Z then x :: y :: rest
      else y :: insert x rest
  end.

Definition sort (arr : list A) : list A := fold_right insert [] arr.

End Sort.
End Array.

(* ================================================================= *)
(** ** Upcoming courses (lines 94 and 109-116) *)

Section Upcoming.

(** [parseISO] of date-fns: the Date of an ISO string, the Invalid Date
    when the string does not parse. *)
Variable parseISO : string -> Js.Date.

(** The time value of [startOfToday()]. *)
Variable today : Z.

(** [a.localeCompare(b)]: negative, zero or positive. *)
Variable localeCompare : string -> string -> Z.

(** The callback of [.filter]:
    [if (!k.fields.startdatum) return false;
     const start = parseISO(k.fields.startdatum);
     return isAfter(start, today) || k.fields.status === 'geplant';] *)
Definition isUpcoming (k : Kurs) : bool :=
  match startdatum_of k with
  | None => false                              (* [!undefined] *)
  | Some s =>
      if String.eqb s "" then false            (* [!''] *)
      else
        let start := parseISO s in
        Js.isAfter start (Js.TimeValue today)
        || Js.strict_eq (status_of k) "geplant"
  end.

(** The sort key [k.fields.startdatum ?? '']. *)
Definition startKey (k : Kurs) : string := Js.nullish (startdatum_of k) "".

(** The callback of [.sort]:
    [(a.fields.startdatum ?? '').localeCompare(b.fields.startdatum ?? '')] *)
Definition compareStart (a b : Kurs) : Z :=
  localeCompare (startKey a) (startKey b).

(** [kurse.filter(...).sort(...)], the list before it is cut. *)
Definition upcomingSorted (kurse : list Kurs) : list Kurs :=
  Array.sort compareStart (filter isUpcoming kurse).

(** [kurse.filter(...).sort(...).slice(0, limit)]; the component has the
    literal [5] for [limit]. *)
Definition selectUpcoming (limit : nat) (kurse : list Kurs) : list Kurs :=
  Js.slice0 limit (upcomingSorted kurse).

Definition upcomingKurse (kurse : list Kurs) : list Kurs :=
  selectUpcoming 5 kurse.

End Upcoming.

(* ================================================================= *)
(** ** Effects of the component: state setters, console, exceptions *)

(** The six [useState] cells (lines 63-68). *)
Record State : Type := mkState {
  dozentenCount : nat;
  teilnehmerCount : nat;
  raeumeCount : nat;
  kurse : list Kurs;
  anmeldungen : list Anmeldung;
  loading : bool
}.

(** The initial values given to [useState]. *)
Definition initialState : State :=
  {| dozentenCount := 0; teilnehmerCount := 0; raeumeCount := 0;
     kurse := []; anmeldungen := []; loading := true |}.

(** A thrown value or rejection reason. *)
Definition Error : Type := string.

(** What the code acts on: the state cells and the lines written with
    [console.error] (message and logged value). *)
Record World : Type := mkWorld {
  cells : State;
  console : list (string * Error)
}.

Module Eff.

Inductive Completion (A : Type) : Type :=
| Normal (a : A)
| Throw (e : Error).
Arguments Normal {A} a.
Arguments Throw {A} e.

Definition M (A : Type) : Type := World -> Completion A * World.

Definition ret {A : Type} (a : A) : M A := fun w => (Normal a, w).

Definition bind {A B : Type} (m : M A) (f : A -> M B) : M B :=
  fun w =>
    match m w with
    | (Normal a, w') => f a w'
    | (Throw e, w') => (Throw e, w')
    end.

Definition throw {A : Type} (e : Error) : M A := fun w => (Throw e, w).

(** [try { body } catch (e) { handler }] *)
Definition try_catch {A : Type} (body : M A) (handler : Error -> M A) : M A :=
  fun w =>
    match body w with
    | (Normal a, w') => (Normal a, w')
    | (Throw e, w') => handler e w'
    end.

(** [try { body } finally { final }]: [final] runs on both exits and the
    completion of [body] is kept unless [final] throws. *)
Definition try_finally {A : Type} (body : M A) (final : M unit) : M A :=
  fun w =>
    match body w with
    | (c, w') =>
        match final w' with
        | (Normal _, w'') => (c, w'')
        | (Throw e, w'') => (Throw e, w'')
        end
    end.

Definition modify (f : State -> State) : M unit :=
  fun w => (Normal tt, {| cells := f (cells w); console := console w |}).

(** [console.error(msg, e)] *)
Definition console_error (msg : string) (e : Error) : M unit :=
  fun w => (Normal tt, {| cells := cells w; console := console w ++ [(msg, e)] |}).

End Eff.

Declare Scope eff_scope.
Delimit Scope eff_scope with eff.
Notation "x <- m ;; k" := (Eff.bind m (fun x => k))
  (at level 61, m at next level, right associativity) : eff_scope.
Notation "m ;; k" := (Eff.bind m (fun _ => k))
  (at level 61, right associativity) : eff_scope.

(** The setters returned by [useState]. *)
Definition setDozentenCount (n : nat) : Eff.M unit :=
  Eff.modify (fun s => {| dozentenCount := n; teilnehmerCount := teilnehmerCount s;
                          raeumeCount := raeumeCount s; kurse := kurse s;
                          anmeldungen := anmeldungen s; loading := loading s |}).
Definition setTeilnehmerCount (n : nat) : Eff.M unit :=
  Eff.modify (fun s => {| dozentenCount := dozentenCount s; teilnehmerCount := n;
                          raeumeCount := raeumeCount s; kurse := kurse s;
                          anmeldungen := anmeldungen s; loading := loading s |}).
Definition setRaeumeCount (n : nat) : Eff.M unit :=
  Eff.modify (fun s => {| dozentenCount := dozentenCount s;
                          teilnehmerCount := teilnehmerCount s;
                          raeumeCount := n; kurse := kurse s;
                          anmeldungen := anmeldungen s; loading := loading s |}).
Definition setKurse (l : list Kurs) : Eff.M unit :=
  Eff.modify (fun s => {| dozentenCount := dozentenCount s;
                          teilnehmerCount := teilnehmerCount s;
                          raeumeCount := raeumeCount s; kurse := l;
                          anmeldungen := anmeldungen s; loading := loading s |}).
Definition setAnmeldungen (l : list Anmeldung) : Eff.M unit :=
  Eff.modify (fun s => {| dozentenCount := dozentenCount s;
                          teilnehmerCount := teilnehmerCount s;
                          raeumeCount := raeumeCount s; kurse := kurse s;
                          anmeldungen := l; loading := loading s |}).
Definition setLoading (b : bool) : Eff.M unit :=
  Eff.modify (fun s => {| dozentenCount := dozentenCount s;
                          teilnehmerCount := teilnehmerCount s;
                          raeumeCount := raeumeCount s; kurse := kurse s;
                          anmeldungen := anmeldungen s; loading := b |}).

(* ================================================================= *)
(** ** Promises *)

Module Promise.

(** A settled promise.  A rejection carries the instant it happened at, so
    that [Promise.all] can pick the first one. *)
Inductive Settled (A : Type) : Type :=
| Fulfilled (v : A)
| Rejected (instant : nat) (reason : Error).
Arguments Fulfilled {A} v.
Arguments Rejected {A} instant reason.

Definition isRejected {A : Type} (p : Settled A) : bool :=
  match p with
  | Fulfilled _ => false
  | Rejected _ _ => true
  end.

(** [Promise.all([p, q])]: fulfilled with both values when both are
    fulfilled, rejected with the reason of the first rejection otherwise
    (of the one that comes first in the array when both happen at the same
    instant). *)
Definition all2 {A B : Type} (p : Settled A) (q : Settled B) : Settled (A * B) :=
  match p, q with
  | Fulfilled a, Fulfilled b => Fulfilled (a, b)
  | Rejected t r, Fulfilled _ => Rejected t r
  | Fulfilled _, Rejected t r => Rejected t r
  | Rejected t1 r1, Rejected t2 r2 =>
      if (t2 <? t1)%nat then Rejected t2 r2 else Rejected t1 r1
  end.

(** [Promise.all] of the five-element array literal. *)
Definition all5 {A B C D E : Type}
    (p1 : Settled A) (p2 : Settled B) (p3 : Settled C)
    (p4 : Settled D) (p5 : Settled E) : Settled (A * B * C * D * E) :=
  all2 (all2 (all2 (all2 p1 p2) p3) p4) p5.

(** [await p] *)
Definition await {A : Type} (p : Settled A) : Eff.M A :=
  match p with
  | Fulfilled v => Eff.ret v
  | Rejected _ reason => Eff.throw reason
  end.

End Promise.

(* ================================================================= *)
(** ** [loadStats] (lines 70-92) *)

Section LoadStats.

(** The record types of the three collections of which only the length is
    used. *)
Variables Dozenten Teilnehmer Raeume : Type.

(** What the five calls of [LivingAppsService] settle to. *)
Record Service : Type := mkService {
  getDozenten : Promise.Settled (list Dozenten);
  getTeilnehmer : Promise.Settled (list Teilnehmer);
  getRaeume : Promise.Settled (list Raeume);
  getKurse : Promise.Settled (list Kurs);
  getAnmeldungen : Promise.Settled (list Anmeldung)
}.

Local Open Scope eff_scope.

Definition loadStats (svc : Service) : Eff.M unit :=
  Eff.try_finally
    (Eff.try_catch
       (r <- Promise.await
               (Promise.all5 (getDozenten svc) (getTeilnehmer svc) (getRaeume svc)
                             (getKurse svc) (getAnmeldungen svc)) ;;
        let '(doz, teil, raeum, kurs, anm) := r in
        setDozentenCount (length doz) ;;
        setTeilnehmerCount (length teil) ;;
        setRaeumeCount (length raeum) ;;
        setKurse kurs ;;
        setAnmeldungen anm)
       (fun e => Eff.console_error "Failed to load stats:" e))
    (setLoading false).

(** One of the five fetches fails. *)
Definition anyRejected (svc : Service) : bool :=
  Promise.isRejected (getDozenten svc)
  || Promise.isRejected (getTeilnehmer svc)
  || Promise.isRejected (getRaeume svc)
  || Promise.isRejected (getKurse svc)
  || Promise.isRejected (getAnmeldungen svc).

End LoadStats.

Arguments mkService {Dozenten Teilnehmer Raeume}.
Arguments getDozenten {Dozenten Teilnehmer Raeume}.
Arguments getTeilnehmer {Dozenten Teilnehmer Raeume}.
Arguments getRaeume {Dozenten Teilnehmer Raeume}.
Arguments getKurse {Dozenten Teilnehmer Raeume}.
Arguments getAnmeldungen {Dozenten Teilnehmer Raeume}.
Arguments loadStats {Dozenten Teilnehmer Raeume}.
Arguments anyRejected {Dozenten Teilnehmer Raeume}.

(* ================================================================= *)
(** * Properties *)

(** ** Subsequences *)

Inductive subseq {A : Type} : list A -> list A -> Prop :=
| subseq_nil : subseq [] []
| subseq_skip x l1 l2 : subseq l1 l2 -> subseq l1 (x :: l2)
| subseq_keep x l1 l2 : subseq l1 l2 -> subseq (x :: l1) (x :: l2).

#[local] Hint Constructors subseq : core.

Lemma subseq_filter {A : Type} (f : A -> bool) (l : list A) :
  subseq (filter f l) l.
Proof.
  induction l as [|x l IH]; simpl; [constructor|].
  destruct (f x); auto.
Qed.

Lemma subseq_map {A B : Type} (g : A -> B) (l1 l2 : list A) :
  subseq l1 l2 -> subseq (map g l1) (map g l2).
Proof. induction 1; simpl; auto. Qed.

Lemma subseq_In {A : Type} (l1 l2 : list A) (x : A) :
  subseq l1 l2 -> In x l1 -> In x l2.
Proof.
  induction 1; simpl; intros Hin; auto.
  destruct Hin; auto.
Qed.

(** ** Strict equality with a literal *)

Lemma strict_eq_iff (x : option string) (lit : string) :
  Js.strict_eq x lit = true <-> x = Some lit.
Proof.
  destruct x as [s|]; simpl.
  - rewrite String.eqb_eq. split; congruence.
  - split; discriminate.
Qed.

Lemma strict_eq_false_iff (x : option string) (lit : string) :
  Js.strict_eq x lit = false <-> x <> Some lit.
Proof.
  rewrite <- strict_eq_iff. destruct (Js.strict_eq x lit); split; congruence.
Qed.

(** ** Counting by status *)

Definition status_eq_dec (x y : option string) : {x = y} + {x <> y}.
Proof. decide equality. apply string_dec. Defined.

(** The count in the words of the contract of [countByStatus]: the number of
    courses whose status field is equal to [status]. *)
Fixpoint countByStatus (courses : list Kurs) (status : string) : nat :=
  match courses with
  | [] => 0
  | k :: rest =>
      (if status_eq_dec (status_of k) (Some status) then 1 else 0)
      + countByStatus rest status
  end.

(** A course has one of the four known statuses. *)
Definition recognized (k : Kurs) : Prop :=
  exists s, In s knownStatuses /\ status_of k = Some s.

Lemma filter_strict_eq_count (courses : list Kurs) (s : string) :
  length (filter (fun k => Js.strict_eq (status_of k) s) courses)
  = countByStatus courses s.
Proof.
  induction courses as [|k rest IH]; simpl; [reflexivity|].
  destruct (status_eq_dec (status_of k) (Some s)) as [E|E].
  - apply strict_eq_iff in E. rewrite E. simpl. now rewrite IH.
  - apply strict_eq_false_iff in E. rewrite E. exact IH.
Qed.

Lemma countByStatus_app (l1 l2 : list Kurs) (s : string) :
  countByStatus (l1 ++ l2) s = countByStatus l1 s + countByStatus l2 s.
Proof.
  induction l1 as [|k l1 IH]; simpl; [reflexivity|]. rewrite IH. lia.
Qed.

Lemma countByStatus_skip (l1 l2 : list Kurs) (k : Kurs) (s : string) :
  status_of k <> Some s ->
  countByStatus (l1 ++ k :: l2) s = countByStatus (l1 ++ l2) s.
Proof.
  intros Hk. rewrite !countByStatus_app. simpl.
  destruct (status_eq_dec (status_of k) (Some s)); [contradiction|lia].
Qed.

(** C9. Each of the four counts of the component is the number of courses
    whose status field is equal to the status of that count, under equality
    of strings (no change of case, no trimming); and a course whose status
    is missing or is none of the four statuses adds to none of the four
    counts, wherever it stands in the collection. *)
Theorem counts_by_status_exact (courses : list Kurs) :
  (geplanteKurse courses = countByStatus courses "geplant"
   /\ aktiveKurse courses = countByStatus courses "aktiv"
   /\ abgeschlosseneKurse courses = countByStatus courses "abgeschlossen"
   /\ abgesagteKurse courses = countByStatus courses "abgesagt")
  /\ (forall (before after : list Kurs) (k : Kurs),
        courses = before ++ k :: after ->
        ~ recognized k ->
        geplanteKurse courses = geplanteKurse (before ++ after)
        /\ aktiveKurse courses = aktiveKurse (before ++ after)
        /\ abgeschlosseneKurse courses = abgeschlosseneKurse (before ++ after)
        /\ abgesagteKurse courses = abgesagteKurse (before ++ after)).
Proof.
  unfold geplanteKurse, aktiveKurse, abgeschlosseneKurse, abgesagteKurse.
  split.
  - repeat split; apply filter_strict_eq_count.
  - intros before after k -> Hk.
    rewrite !filter_strict_eq_count.
    assert (Hno : forall s, In s knownStatuses -> status_of k <> Some s).
    { intros s Hs E. apply Hk. exists s. auto. }
    repeat split; apply countByStatus_skip; apply Hno; simpl; auto.
Qed.

Definition kurs (id : string) (st start : option string) : Kurs :=
  Kurse.mk id (Kurse.mkFields None st start).

(** A course with the status ['Aktiv'] (capital A) and one without a status
    do not count as active. *)
Lemma counts_by_status_exact_witness :
  ~ recognized (kurs "2" (Some "Aktiv") None)
  /\ aktiveKurse [kurs "1" (Some "aktiv") None; kurs "2" (Some "Aktiv") None;
                  kurs "3" None None]
     = aktiveKurse ([kurs "1" (Some "aktiv") None] ++ [kurs "3" None None]).
Proof.
  assert (H : ~ recognized (kurs "2" (Some "Aktiv") None)).
  { intros [s [Hs E]]. simpl in Hs.
    destruct Hs as [<-|[<-|[<-|[<-|[]]]]]; discriminate E. }
  split; [exact H|].
  exact (proj1 (proj2 (proj2 (counts_by_status_exact _)
           [kurs "1" (Some "aktiv") None] [kurs "3" None None]
           (kurs "2" (Some "Aktiv") None) eq_refl H))).
Defined.

(** ** Status distribution *)

Lemma statusData_cases (courses : list Kurs) :
  statusData courses
  = (if (0 <? geplanteKurse courses)%nat
     then [mkBucket "Geplant" (geplanteKurse courses)] else [])
    ++ (if (0 <? aktiveKurse courses)%nat
        then [mkBucket "Aktiv" (aktiveKurse courses)] else [])
    ++ (if (0 <? abgeschlosseneKurse courses)%nat
        then [mkBucket "Abgeschlossen" (abgeschlosseneKurse courses)] else [])
    ++ (if (0 <? abgesagteKurse courses)%nat
        then [mkBucket "Abgesagt" (abgesagteKurse courses)] else []).
Proof.
  unfold statusData, statusBuckets. simpl.
  destruct (0 <? geplanteKurse courses)%nat, (0 <? aktiveKurse courses)%nat,
    (0 <? abgeschlosseneKurse courses)%nat, (0 <? abgesagteKurse courses)%nat;
    reflexivity.
Qed.

(** C5. The status distribution has no bucket with the count 0; its buckets
    are the four buckets of the fixed order Geplant, Aktiv, Abgeschlossen,
    Abgesagt with some of them left out, so that its labels are a
    subsequence of that order; and it is the empty sequence exactly when the
    four counts are all zero. *)
Theorem status_distribution_shape (courses : list Kurs) :
  Forall (fun d => value d <> 0) (statusData courses)
  /\ subseq (statusData courses) (statusBuckets courses)
  /\ subseq (map name (statusData courses)) statusLabels
  /\ (statusData courses = []
      <-> geplanteKurse courses = 0 /\ aktiveKurse courses = 0
          /\ abgeschlosseneKurse courses = 0 /\ abgesagteKurse courses = 0).
Proof.
  split; [|split; [|split]].
  - apply Forall_forall. intros d Hd. apply filter_In in Hd.
    destruct Hd as [_ Hd]. apply Nat.ltb_lt in Hd. lia.
  - apply subseq_filter.
  - change statusLabels with (map name (statusBuckets courses)).
    apply subseq_map, subseq_filter.
  - rewrite statusData_cases.
    destruct (Nat.ltb_spec 0 (geplanteKurse courses)),
      (Nat.ltb_spec 0 (aktiveKurse courses)),
      (Nat.ltb_spec 0 (abgeschlosseneKurse courses)),
      (Nat.ltb_spec 0 (abgesagteKurse courses)); simpl;
      split; intros; try discriminate; try lia; reflexivity.
Qed.

(** The sum of the counts of a sequence of buckets. *)
Definition sumCounts (buckets : list Bucket) : nat :=
  list_sum (map value buckets).

(** The filter that drops the empty buckets does not change the sum. *)
Lemma sumCounts_statusData (courses : list Kurs) :
  sumCounts (statusData courses)
  = geplanteKurse courses + aktiveKurse courses
    + abgeschlosseneKurse courses + abgesagteKurse courses.
Proof.
  rewrite statusData_cases. unfold sumCounts.
  destruct (Nat.ltb_spec 0 (geplanteKurse courses)),
    (Nat.ltb_spec 0 (aktiveKurse courses)),
    (Nat.ltb_spec 0 (abgeschlosseneKurse courses)),
    (Nat.ltb_spec 0 (abgesagteKurse courses)); simpl; lia.
Qed.

(** The number of the four statuses a course counts for: 1 when its status
    is one of them, 0 otherwise. *)
Definition hits (k : Kurs) : nat :=
  countByStatus [k] "geplant" + countByStatus [k] "aktiv"
  + countByStatus [k] "abgeschlossen" + countByStatus [k] "abgesagt".

Lemma hits_recognized (k : Kurs) : recognized k -> hits k = 1.
Proof.
  intros [s [Hs E]]. unfold hits. simpl. rewrite E.
  simpl in Hs. destruct Hs as [<-|[<-|[<-|[<-|[]]]]];
    repeat match goal with
           | |- context [status_eq_dec ?a ?b] =>
               destruct (status_eq_dec a b); try discriminate; try congruence
           end; reflexivity.
Qed.

Lemma hits_unrecognized (k : Kurs) : ~ recognized k -> hits k = 0.
Proof.
  intros Hk. unfold hits. simpl.
  repeat match goal with
         | |- context [status_eq_dec ?a (Some ?s)] =>
             destruct (status_eq_dec a (Some s)) as [E|_];
             [exfalso; apply Hk; exists s; split; [simpl; tauto|exact E]|]
         end.
  reflexivity.
Qed.

Lemma recognized_dec (k : Kurs) : {recognized k} + {~ recognized k}.
Proof.
  destruct (in_dec status_eq_dec (status_of k) (map Some knownStatuses)) as [H|H].
  - left. apply in_map_iff in H. destruct H as [s [E Hs]]. exists s. auto.
  - right. intros [s [Hs E]]. apply H. rewrite E. now apply in_map.
Defined.

Lemma four_counts_cons (k : Kurs) (courses : list Kurs) :
  countByStatus (k :: courses) "geplant" + countByStatus (k :: courses) "aktiv"
  + countByStatus (k :: courses) "abgeschlossen"
  + countByStatus (k :: courses) "abgesagt"
  = hits k
    + (countByStatus courses "geplant" + countByStatus courses "aktiv"
       + countByStatus courses "abgeschlossen" + countByStatus courses "abgesagt").
Proof. unfold hits. simpl. lia. Qed.

Lemma four_counts_le (courses : list Kurs) :
  countByStatus courses "geplant" + countByStatus courses "aktiv"
  + countByStatus courses "abgeschlossen" + countByStatus courses "abgesagt"
  <= length courses.
Proof.
  induction courses as [|k rest IH]; [simpl; lia|].
  rewrite four_counts_cons. simpl length.
  destruct (recognized_dec k) as [H|H];
    [rewrite (hits_recognized k H)|rewrite (hits_unrecognized k H)]; lia.
Qed.

Lemma four_counts_eq_iff (courses : list Kurs) :
  countByStatus courses "geplant" + countByStatus courses "aktiv"
  + countByStatus courses "abgeschlossen" + countByStatus courses "abgesagt"
  = length courses
  <-> Forall recognized courses.
Proof.
  induction courses as [|k rest IH]; [simpl; split; auto|].
  rewrite four_counts_cons. simpl length.
  pose proof (four_counts_le rest) as Hle.
  destruct (recognized_dec k) as [H|H].
  - rewrite (hits_recognized k H). split.
    + intros E. constructor; [exact H|]. apply IH. lia.
    + intros HF. inversion HF; subst. apply IH in H3. lia.
  - rewrite (hits_unrecognized k H). split.
    + intros E. lia.
    + intros HF. inversion HF; subst. contradiction.
Qed.

(** C6. The sum of the counts of the status distribution is at most the
    number of courses, and it is equal to it if and only if every course has
    one of the four known statuses. *)
Theorem status_distribution_total (courses : list Kurs) :
  sumCounts (statusData courses) <= length courses
  /\ (sumCounts (statusData courses) = length courses
      <-> Forall recognized courses).
Proof.
  rewrite sumCounts_statusData.
  unfold geplanteKurse, aktiveKurse, abgeschlosseneKurse, abgesagteKurse.
  rewrite !filter_strict_eq_count.
  split; [apply four_counts_le|apply four_counts_eq_iff].
Qed.

(** ** Payment summary *)

Definition bezahlt_eq_dec (x y : option bool) : {x = y} + {x <> y}.
Proof. decide equality. apply Bool.bool_dec. Defined.

(** The paid count in the words of the contract: the number of registrations
    whose paid flag is [true]. *)
Fixpoint paidCount (registrations : list Anmeldung) : nat :=
  match registrations with
  | [] => 0
  | a :: rest =>
      (if bezahlt_eq_dec (bezahlt_of a) (Some true) then 1 else 0)
      + paidCount rest
  end.

Lemma not_bool_negb (x : option bool) : Js.not_bool x = negb (Js.is_true x).
Proof. destruct x as [[|]|]; reflexivity. Qed.

Lemma bezahltCount_paidCount (registrations : list Anmeldung) :
  bezahltCount registrations = paidCount registrations.
Proof.
  unfold bezahltCount.
  induction registrations as [|a rest IH]; simpl; [reflexivity|].
  destruct (bezahlt_eq_dec (bezahlt_of a) (Some true)) as [E|E].
  - rewrite E. simpl. now rewrite IH.
  - destruct (bezahlt_of a) as [[|]|]; simpl; try exact IH. congruence.
Qed.

(** C3. The paid count and the outstanding count add up to the number of
    registrations, and the paid count is the number of registrations whose
    paid flag is [true]: a flag that is [false] or absent counts as unpaid. *)
Theorem paid_plus_outstanding (registrations : list Anmeldung) :
  bezahltCount registrations + offenCount registrations = length registrations
  /\ bezahltCount registrations = paidCount registrations.
Proof.
  split; [|apply bezahltCount_paidCount].
  unfold bezahltCount, offenCount.
  rewrite (filter_ext (fun a => Js.not_bool (bezahlt_of a))
             (fun a => negb (Js.is_true (bezahlt_of a)))).
  - apply filter_length.
  - intros a. apply not_bool_negb.
Qed.

(** The example of the contract: two paid, one unpaid, one without a flag. *)
Example payment_example :
  let l := [anm "1" (Some true); anm "2" (Some true); anm "3" (Some false);
            anm "4" None] in
  bezahltCount l = 2 /\ offenCount l = 2 /\ quoteText l = Percent (Some 50%Z).
Proof. vm_compute. auto. Qed.

(** [Math.round] on halves, on negative numbers and next to a half. *)
Example Math_round_values :
  Number.Math_round 0.5%float = Some 1%Z
  /\ Number.Math_round 2.5%float = Some 3%Z
  /\ Number.Math_round (-2.5)%float = Some (-2)%Z
  /\ Number.Math_round 1.25%float = Some 1%Z
  /\ Number.Math_round 1.75%float = Some 2%Z
  /\ Number.Math_round (-0.5)%float = Some 0%Z
  /\ Number.Math_round 0x1.fffffffffffffp-2%float = Some 0%Z
  /\ Number.Math_round 100%float = Some 100%Z
  /\ Number.Math_round (PrimFloat.div 0%float 0%float) = None.
Proof. vm_compute. repeat split. Qed.

(** The rate as a function of the two counts it is computed from. *)
Definition percentOf (paid total : nat) : option Z :=
  Number.Math_round
    (PrimFloat.mul (PrimFloat.div (Number.of_nat paid) (Number.of_nat total))
                   100%float).

Lemma zahlungsquote_percentOf (registrations : list Anmeldung) :
  zahlungsquote registrations
  = percentOf (bezahltCount registrations) (length registrations).
Proof. reflexivity. Qed.

(** For an empty collection the payment block is not rendered, and the tile
    of the rate would show the dash: no rate is computed. *)
Lemma payment_empty :
  paymentSummary [] = None /\ quoteText [] = Dash.
Proof. split; reflexivity. Qed.

(** For a non-empty collection the block is rendered with the two counts and
    the computed rate. *)
Lemma payment_nonempty (a : Anmeldung) (rest : list Anmeldung) :
  paymentSummary (a :: rest)
  = Some {| tile_bezahlt := bezahltCount (a :: rest);
            tile_offen := offenCount (a :: rest);
            tile_quote := Percent (zahlungsquote (a :: rest)) |}.
Proof. reflexivity. Qed.

(** [check paid total]: the computed rate is the round-half-up of the exact
    quotient. *)
Definition rate_is_exact (paid total : nat) : bool :=
  match percentOf paid total with
  | Some r => (r =? round_half_up_percent paid total)%Z
  | None => false
  end.

(** [check paid total]: the computed rate is an integer from 0 to 100 that is
    the round-half-up of the exact quotient or one less. *)
Definition rate_is_close (paid total : nat) : bool :=
  match percentOf paid total with
  | Some r =>
      (0 <=? r)%Z && (r <=? 100)%Z
      && ((r =? round_half_up_percent paid total)%Z
          || (r + 1 =? round_half_up_percent paid total)%Z)
  | None => false
  end.

(** All pairs [(paid, total)] with [1 <= total <= bound] and [paid <= total]. *)
Definition countPairs (bound : nat) : list (nat * nat) :=
  flat_map (fun total => map (fun paid => (paid, total)) (seq 0 (S total)))
           (seq 1 bound).

(** Up to 39 registrations the computed rate is the exact round-half-up. *)
Lemma rate_exact_below_40 :
  forallb (fun pt => rate_is_exact (fst pt) (snd pt)) (countPairs 39) = true.
Proof. vm_compute. reflexivity. Qed.

(** Up to 200 registrations the computed rate is in the range from 0 to 100
    and at most one below the exact round-half-up. *)
Lemma rate_close_up_to_200 :
  forallb (fun pt => rate_is_close (fst pt) (snd pt)) (countPairs 200) = true.
Proof. vm_compute. reflexivity. Qed.

(** C4. With 40 registrations of which 23 are paid the exact quotient is
    57.5 percent, whose round-half-up is 58; the component computes
    [23 / 40] and then the product with 100 in binary64, gets
    57.49999999999999 and shows 57. *)
Theorem zahlungsquote_23_of_40 :
  length (registrations 23 40) = 40
  /\ bezahltCount (registrations 23 40) = 23
  /\ quoteText (registrations 23 40) = Percent (Some 57%Z)
  /\ round_half_up_percent 23 40 = 58%Z.
Proof. vm_compute. repeat split. Qed.

(** ** The stable sort *)

Section SortFacts.
Context {A : Type}.
Variable comparefn : A -> A -> Z.

Lemma insert_Permutation (x : A) (l : list A) :
  Permutation (Array.insert comparefn x l) (x :: l).
Proof.
  induction l as [|y l IH]; simpl; [reflexivity|].
  destruct (comparefn x y <=? 0)%Z; [reflexivity|].
  rewrite IH. apply perm_swap.
Qed.

Lemma sort_Permutation (l : list A) :
  Permutation (Array.sort comparefn l) l.
Proof.
  induction l as [|x l IH]; simpl; [reflexivity|].
  rewrite insert_Permutation. now constructor.
Qed.

Lemma sort_In (l : list A) (x : A) :
  In x (Array.sort comparefn l) <-> In x l.
Proof.
  split; apply Permutation_in;
    [apply sort_Permutation|symmetry; apply sort_Permutation].
Qed.

Lemma sort_length (l : list A) :
  length (Array.sort comparefn l) = length l.
Proof. apply Permutation_length, sort_Permutation. Qed.

(** Elements that tie with each other keep their order: for a class [tie]
    of elements none of which comes strictly after another one, the
    members of the class stand in the sorted array as in the array. *)
Section Stable.
Variable tie : A -> bool.
Hypothesis tie_le :
  forall a b, tie a = true -> tie b = true -> (comparefn a b <= 0)%Z.

Lemma insert_stable (x : A) (l : list A) :
  filter tie (Array.insert comparefn x l) = filter tie (x :: l).
Proof.
  induction l as [|y l IH]; [reflexivity|].
  simpl Array.insert.
  destruct (Z.leb_spec (comparefn x y) 0) as [Hle|Hgt]; [reflexivity|].
  simpl. rewrite IH. simpl.
  destruct (tie x) eqn:Ex, (tie y) eqn:Ey; simpl; try reflexivity.
  specialize (tie_le x y Ex Ey). lia.
Qed.

Lemma sort_stable (l : list A) :
  filter tie (Array.sort comparefn l) = filter tie l.
Proof.
  induction l as [|x l IH]; [reflexivity|].
  simpl Array.sort. rewrite insert_stable. simpl. now rewrite IH.
Qed.
End Stable.

(** With a consistent comparison function the result is ordered. *)
Section Ordered.
Hypothesis comparefn_antisym :
  forall a b, Z.sgn (comparefn b a) = (- Z.sgn (comparefn a b))%Z.
Hypothesis comparefn_trans :
  forall a b c,
    (comparefn a b <= 0)%Z -> (comparefn b c <= 0)%Z -> (comparefn a c <= 0)%Z.

Definition precedes (a b : A) : Prop := (comparefn a b <= 0)%Z.

Lemma insert_sorted (x : A) (l : list A) :
  StronglySorted precedes l ->
  StronglySorted precedes (Array.insert comparefn x l).
Proof.
  induction 1 as [|y l Hl IH Hy]; simpl.
  - constructor; constructor.
  - destruct (Z.leb_spec (comparefn x y) 0) as [Hle|Hgt].
    + constructor; [constructor; assumption|].
      constructor; [exact Hle|].
      apply Forall_forall. intros z Hz.
      rewrite Forall_forall in Hy.
      apply (comparefn_trans x y z Hle). now apply Hy.
    + constructor; [exact IH|].
      apply Forall_forall. intros z Hz.
      apply (Permutation_in _ (insert_Permutation x l)) in Hz.
      destruct Hz as [<-|Hz].
      * unfold precedes. pose proof (comparefn_antisym x y). lia.
      * rewrite Forall_forall in Hy. now apply Hy.
Qed.

Lemma sort_sorted (l : list A) :
  StronglySorted precedes (Array.sort comparefn l).
Proof.
  induction l as [|x l IH]; simpl; [constructor|].
  now apply insert_sorted.
Qed.
End Ordered.

End SortFacts.

Lemma StronglySorted_firstn {A : Type} (R : A -> A -> Prop) (n : nat) (l : list A) :
  StronglySorted R l -> StronglySorted R (firstn n l).
Proof.
  intros H. revert n. induction H as [|x l Hl IH Hx]; intros [|n]; simpl;
    try constructor.
  - apply IH.
  - rewrite Forall_forall in *. intros y Hy. apply Hx.
    rewrite <- (firstn_skipn n l). apply in_or_app. now left.
Qed.

Lemma filter_firstn_prefix {A : Type} (f : A -> bool) (n : nat) (l : list A) :
  filter f l = filter f (firstn n l) ++ filter f (skipn n l).
Proof. rewrite <- filter_app. now rewrite firstn_skipn. Qed.

(** ** Upcoming courses *)

Section UpcomingFacts.

Variable parseISO : string -> Js.Date.
Variable today : Z.
Variable localeCompare : string -> string -> Z.

(** What the filter of the component lets through: a course that has a
    non-empty start date, and whose start date parses to a date after
    today or whose status is ['geplant']. *)
Definition eligible (k : Kurs) : Prop :=
  exists s, startdatum_of k = Some s /\ s <> ""
    /\ ((exists t, parseISO s = Js.TimeValue t /\ (today < t)%Z)
        \/ status_of k = Some "geplant").

Lemma isAfter_today_iff (d : Js.Date) :
  Js.isAfter d (Js.TimeValue today) = true
  <-> exists t, d = Js.TimeValue t /\ (today < t)%Z.
Proof.
  destruct d as [|t]; simpl.
  - split; [discriminate|]. intros [t [E _]]. discriminate E.
  - rewrite Z.ltb_lt. split.
    + intros H. exists t. auto.
    + intros [t' [E H]]. now inversion E; subst.
Qed.

Lemma isUpcoming_iff (k : Kurs) :
  isUpcoming parseISO today k = true <-> eligible k.
Proof.
  unfold isUpcoming, eligible.
  destruct (startdatum_of k) as [s|].
  - destruct (String.eqb_spec s "") as [E|E].
    + split; [discriminate|]. intros [s' [Hs [Hne _]]].
      inversion Hs; subst. now contradiction Hne.
    + cbv zeta. rewrite orb_true_iff, isAfter_today_iff, strict_eq_iff. split.
      * intros H. exists s. auto.
      * intros [s' [Hs [_ H]]]. now inversion Hs; subst.
  - split; [discriminate|]. intros [s [Hs _]]. discriminate Hs.
Qed.

Lemma upcomingSorted_In (courses : list Kurs) (k : Kurs) :
  In k (upcomingSorted parseISO today localeCompare courses)
  <-> In k courses /\ eligible k.
Proof.
  unfold upcomingSorted. rewrite sort_In, filter_In, isUpcoming_iff.
  reflexivity.
Qed.

Lemma selectUpcoming_incl (limit : nat) (courses : list Kurs) (k : Kurs) :
  In k (selectUpcoming parseISO today localeCompare limit courses) ->
  In k (upcomingSorted parseISO today localeCompare courses).
Proof.
  unfold selectUpcoming, Js.slice0. intros H.
  rewrite <- (firstn_skipn limit (upcomingSorted _ _ _ _)).
  apply in_or_app. now left.
Qed.

(** C1, as the code has it. A course is in the filtered and sorted list if
    and only if it is a course of the collection that has a non-empty start
    date and whose start date is after today or whose status is
    ['geplant']; the selection is the first [limit] entries of that list,
    so every selected course is such a course, and all of them are selected
    when there are at most [limit]; a course without a start date is never
    selected, whatever its status. *)
Theorem upcoming_selection_iff (limit : nat) (courses : list Kurs) :
  (forall k, In k (upcomingSorted parseISO today localeCompare courses)
             <-> In k courses /\ eligible k)
  /\ (forall k, In k (selectUpcoming parseISO today localeCompare limit courses)
                -> In k courses /\ eligible k)
  /\ (length (filter (isUpcoming parseISO today) courses) <= limit ->
      forall k, In k (selectUpcoming parseISO today localeCompare limit courses)
                <-> In k courses /\ eligible k)
  /\ (forall k, startdatum_of k = None ->
                ~ In k (selectUpcoming parseISO today localeCompare limit courses)).
Proof.
  split; [|split; [|split]].
  - apply upcomingSorted_In.
  - intros k H. now apply upcomingSorted_In, selectUpcoming_incl with limit.
  - intros Hlen k. unfold selectUpcoming, Js.slice0.
    rewrite firstn_all2; [apply upcomingSorted_In|].
    unfold upcomingSorted. now rewrite sort_length.
  - intros k Hk H. apply selectUpcoming_incl, upcomingSorted_In in H.
    destruct H as [_ [s [Hs _]]]. congruence.
Qed.

(** C8. A course whose start date does not parse does not stop the
    selection: the comparison of its date with today is false, so that the
    course passes the filter through its status only, the courses before and
    after it are filtered as without it, and the selection is, as for every
    collection, a list of at most five courses that pass the filter.  The
    four aggregations have a value on the empty collection and on records
    whose optional fields are all absent. *)
Theorem unparseable_start_date (before after : list Kurs) (k : Kurs) (s : string) :
  startdatum_of k = Some s ->
  parseISO s = Js.InvalidDate ->
  Js.isAfter (parseISO s) (Js.TimeValue today) = false
  /\ isUpcoming parseISO today k
     = negb (String.eqb s "") && Js.strict_eq (status_of k) "geplant"
  /\ filter (isUpcoming parseISO today) (before ++ k :: after)
     = filter (isUpcoming parseISO today) before
       ++ (if negb (String.eqb s "") && Js.strict_eq (status_of k) "geplant"
           then [k] else [])
       ++ filter (isUpcoming parseISO today) after
  /\ length (upcomingKurse parseISO today localeCompare (before ++ k :: after)) <= 5
  /\ (forall k', In k' (upcomingKurse parseISO today localeCompare
                          (before ++ k :: after)) ->
                 In k' (before ++ k :: after) /\ eligible k')
  /\ (statusData [] = [] /\ aktiveKurse [] = 0 /\ geplanteKurse [] = 0
      /\ upcomingKurse parseISO today localeCompare [] = []
      /\ bezahltCount [] = 0 /\ offenCount [] = 0 /\ paymentSummary [] = None)
  /\ (statusData [Kurse.mk "" (Kurse.mkFields None None None)] = []
      /\ upcomingKurse parseISO today localeCompare
           [Kurse.mk "" (Kurse.mkFields None None None)] = []
      /\ bezahltCount [Anmeldungen.mk "" (Anmeldungen.mkFields None)] = 0
      /\ offenCount [Anmeldungen.mk "" (Anmeldungen.mkFields None)] = 1).
Proof.
  intros Hs Hparse.
  assert (Hk : isUpcoming parseISO today k
               = negb (String.eqb s "") && Js.strict_eq (status_of k) "geplant").
  { unfold isUpcoming. rewrite Hs, Hparse.
    destruct (String.eqb s ""); reflexivity. }
  split; [now rewrite Hparse|]. split; [exact Hk|].
  split; [|split; [|split; [|split]]].
  - rewrite filter_app. simpl. rewrite Hk.
    destruct (negb (String.eqb s "") && Js.strict_eq (status_of k) "geplant");
      reflexivity.
  - unfold upcomingKurse, selectUpcoming, Js.slice0. apply firstn_le_length.
  - intros k' Hk'. unfold upcomingKurse in Hk'.
    now apply upcomingSorted_In, selectUpcoming_incl with 5.
  - repeat split.
  - repeat split.
Qed.

End UpcomingFacts.

(** *** Order of the selection *)

Section UpcomingOrder.

Variable parseISO : string -> Js.Date.
Variable today : Z.
Variable localeCompare : string -> string -> Z.

(** [localeCompare] is a consistent comparison function, as [sort]
    requires: exchanging the arguments exchanges the sign, and "not after"
    is transitive. *)
Hypothesis localeCompare_antisym :
  forall a b, Z.sgn (localeCompare b a) = (- Z.sgn (localeCompare a b))%Z.
Hypothesis localeCompare_trans :
  forall a b c,
    (localeCompare a b <= 0)%Z -> (localeCompare b c <= 0)%Z ->
    (localeCompare a c <= 0)%Z.

(** No string comes before the empty string. *)
Hypothesis localeCompare_empty :
  forall s, (localeCompare "" s <= 0)%Z.

Lemma localeCompare_refl (a : string) : localeCompare a a = 0%Z.
Proof. pose proof (localeCompare_antisym a a). lia. Qed.

(** The courses whose sort key is the string [d]. *)
Definition sameStart (d : string) (k : Kurs) : bool :=
  String.eqb (startKey k) d.

Lemma sameStart_tie (d : string) (a b : Kurs) :
  sameStart d a = true -> sameStart d b = true ->
  (compareStart localeCompare a b <= 0)%Z.
Proof.
  unfold sameStart, compareStart. rewrite !String.eqb_eq.
  intros -> ->. rewrite localeCompare_refl. lia.
Qed.

Lemma compareStart_antisym (a b : Kurs) :
  Z.sgn (compareStart localeCompare b a)
  = (- Z.sgn (compareStart localeCompare a b))%Z.
Proof. apply localeCompare_antisym. Qed.

Lemma compareStart_trans (a b c : Kurs) :
  (compareStart localeCompare a b <= 0)%Z ->
  (compareStart localeCompare b c <= 0)%Z ->
  (compareStart localeCompare a c <= 0)%Z.
Proof. apply localeCompare_trans. Qed.

(** In a sorted array, whatever stands before a course without a start
    date ties with it. *)
Lemma undated_first (arr l1 l2 : list Kurs) (k : Kurs) :
  Array.sort (compareStart localeCompare) arr = l1 ++ k :: l2 ->
  startdatum_of k = None ->
  Forall (fun k' => compareStart localeCompare k' k = 0%Z) l1.
Proof.
  intros E Hk.
  pose proof (sort_sorted (compareStart localeCompare)
                compareStart_antisym compareStart_trans arr) as HS.
  rewrite E in HS. clear E.
  induction l1 as [|x l1 IH]; [constructor|].
  simpl in HS. inversion HS as [|? ? HS' Hx]; subst.
  constructor; [|now apply IH].
  rewrite Forall_forall in Hx.
  assert (Hle : (compareStart localeCompare x k <= 0)%Z).
  { apply Hx, in_or_app. right. now left. }
  assert (Hge : (compareStart localeCompare k x <= 0)%Z).
  { unfold compareStart, startKey at 1. rewrite Hk. apply localeCompare_empty. }
  pose proof (compareStart_antisym x k). lia.
Qed.

(** C7. The selection has at most [limit] entries (the component has 5);
    it is ordered by start date, the dates being compared as strings by
    [localeCompare] and a missing date being taken as the empty string,
    before which no string comes, so that whatever stands before a course
    without a date in a sorted array ties with it; and the selected courses
    of one start date stand in the order they have in the collection. *)
Theorem upcoming_sorted_stable (limit : nat) (courses : list Kurs) :
  length (selectUpcoming parseISO today localeCompare limit courses) <= limit
  /\ StronglySorted
       (fun a b => (localeCompare (startKey a) (startKey b) <= 0)%Z)
       (selectUpcoming parseISO today localeCompare limit courses)
  /\ (forall k, startdatum_of k = None ->
                startKey k = ""
                /\ forall arr l1 l2,
                     Array.sort (compareStart localeCompare) arr = l1 ++ k :: l2 ->
                     Forall (fun k' => compareStart localeCompare k' k = 0%Z) l1)
  /\ (forall d, exists rest,
        filter (sameStart d) (filter (isUpcoming parseISO today) courses)
        = filter (sameStart d)
            (selectUpcoming parseISO today localeCompare limit courses)
          ++ rest).
Proof.
  split; [|split; [|split]].
  - unfold selectUpcoming, Js.slice0. apply firstn_le_length.
  - unfold selectUpcoming, Js.slice0. apply StronglySorted_firstn.
    apply (sort_sorted (compareStart localeCompare)
             compareStart_antisym compareStart_trans).
  - intros k Hk. split.
    + unfold startKey. now rewrite Hk.
    + intros arr l1 l2 E. now apply undated_first with arr l2.
  - intros d.
    exists (filter (sameStart d)
              (skipn limit (upcomingSorted parseISO today localeCompare courses))).
    unfold selectUpcoming, Js.slice0.
    rewrite <- filter_firstn_prefix. unfold upcomingSorted.
    symmetry. apply sort_stable. apply sameStart_tie.
Qed.

End UpcomingOrder.

(** ** A run of the selection *)

Module Sample.

(** The dates date-fns gives for the strings of the run below (time values
    at midnight UTC); any other string is taken not to parse. *)
Definition parseISO (s : string) : Js.Date :=
  if String.eqb s "2024-05-01" then Js.TimeValue 1714521600000
  else if String.eqb s "2024-07-01" then Js.TimeValue 1719792000000
  else if String.eqb s "2024-08-15" then Js.TimeValue 1723680000000
  else Js.InvalidDate.

(** 2024-06-01. *)
Definition today : Z := 1717200000000.

(** The comparison of strings by code units, with which [localeCompare]
    agrees on ISO dates. *)
Definition compareCodeUnits (a b : string) : Z :=
  match String_as_OT.compare a b with
  | Eq => 0
  | Lt => -1
  | Gt => 1
  end.

Lemma lt_irrefl (a : string) : ~ String_as_OT.lt a a.
Proof. apply (@StrictOrder_Irreflexive _ _ String_as_OT.lt_strorder). Qed.

Lemma lt_trans (a b c : string) :
  String_as_OT.lt a b -> String_as_OT.lt b c -> String_as_OT.lt a c.
Proof. apply (@StrictOrder_Transitive _ _ String_as_OT.lt_strorder). Qed.

Lemma compareCodeUnits_antisym (a b : string) :
  Z.sgn (compareCodeUnits b a) = (- Z.sgn (compareCodeUnits a b))%Z.
Proof.
  unfold compareCodeUnits.
  destruct (String_as_OT.compare_spec a b) as [E|L|L],
           (String_as_OT.compare_spec b a) as [E'|L'|L'];
    try reflexivity; exfalso; unfold String_as_OT.eq in *; subst;
    try (now apply (lt_irrefl b));
    try (now apply (lt_irrefl a));
    try (apply (lt_irrefl a); now apply lt_trans with b).
Qed.

Lemma compareCodeUnits_le (a b : string) :
  (compareCodeUnits a b <= 0)%Z <-> a = b \/ String_as_OT.lt a b.
Proof.
  unfold compareCodeUnits.
  destruct (String_as_OT.compare_spec a b) as [E|L|L]; split; intros H;
    auto; try lia; exfalso.
  destruct H as [->|H].
  - now apply (lt_irrefl b).
  - apply (lt_irrefl a). now apply lt_trans with b.
Qed.

Lemma compareCodeUnits_trans (a b c : string) :
  (compareCodeUnits a b <= 0)%Z -> (compareCodeUnits b c <= 0)%Z ->
  (compareCodeUnits a c <= 0)%Z.
Proof.
  rewrite !compareCodeUnits_le. intros [->|H1] [->|H2]; auto.
  right. now apply lt_trans with b.
Qed.

Lemma compareCodeUnits_empty (s : string) : (compareCodeUnits "" s <= 0)%Z.
Proof. destruct s; unfold compareCodeUnits; simpl; lia. Qed.

(** The three courses of the example of the contract, and two planned
    courses of one start date. *)
Definition past : Kurs := kurs "1" (Some "aktiv") (Some "2024-05-01").
Definition july : Kurs := kurs "2" (Some "aktiv") (Some "2024-07-01").
Definition undated : Kurs := kurs "3" (Some "geplant") None.
Definition august_a : Kurs := kurs "4" (Some "geplant") (Some "2024-08-15").
Definition august_b : Kurs := kurs "5" (Some "aktiv") (Some "2024-08-15").
Definition unparseable : Kurs := kurs "6" (Some "geplant") (Some "bald").

Definition courses : list Kurs := [past; july; undated].

End Sample.

(** The selection in the words of the contract: a course is selected when it
    has a start date that is after the date of reference, or when its status
    is ['geplant'], with or without a start date. *)
Definition claimedUpcoming (parseISO : string -> Js.Date) (asOf : Z) (k : Kurs) : Prop :=
  (exists s, startdatum_of k = Some s
             /\ exists t, parseISO s = Js.TimeValue t /\ (asOf < t)%Z)
  \/ status_of k = Some "geplant".

(** The example of the contract, as the component runs it: of the past
    course, the course of July and the planned course without a date, only
    the course of July is selected. *)
Example upcoming_example :
  upcomingKurse Sample.parseISO Sample.today Sample.compareCodeUnits Sample.courses
  = [Sample.july].
Proof. vm_compute. reflexivity. Qed.

(** C1, as stated, fails: the planned course without a start date is a
    course of the collection that the stated condition selects, and the
    component does not select it. *)
Lemma planned_undated_not_selected :
  In Sample.undated Sample.courses
  /\ claimedUpcoming Sample.parseISO Sample.today Sample.undated
  /\ ~ In Sample.undated
        (upcomingKurse Sample.parseISO Sample.today Sample.compareCodeUnits
           Sample.courses)
  /\ ~ (forall k,
          In k (upcomingKurse Sample.parseISO Sample.today
                  Sample.compareCodeUnits Sample.courses)
          <-> In k Sample.courses
              /\ claimedUpcoming Sample.parseISO Sample.today k).
Proof.
  assert (Hin : In Sample.undated Sample.courses) by (simpl; auto).
  assert (Hcl : claimedUpcoming Sample.parseISO Sample.today Sample.undated)
    by (right; reflexivity).
  assert (Hout : ~ In Sample.undated
                     (upcomingKurse Sample.parseISO Sample.today
                        Sample.compareCodeUnits Sample.courses)).
  { rewrite upcoming_example. intros [E|[]]. discriminate E. }
  repeat split; try assumption.
  intros H. apply Hout, H. split; assumption.
Qed.

Lemma upcoming_selection_iff_witness :
  length (filter (isUpcoming Sample.parseISO Sample.today) Sample.courses) <= 5
  /\ forall k,
       In k (selectUpcoming Sample.parseISO Sample.today Sample.compareCodeUnits
               5 Sample.courses)
       <-> In k Sample.courses /\ eligible Sample.parseISO Sample.today k.
Proof.
  assert (H : length (filter (isUpcoming Sample.parseISO Sample.today)
                        Sample.courses) <= 5) by (vm_compute; lia).
  split; [exact H|].
  exact (proj1 (proj2 (proj2
           (upcoming_selection_iff Sample.parseISO Sample.today
              Sample.compareCodeUnits 5 Sample.courses))) H).
Defined.

(** A collection with two courses of one start date, a course without a
    date and a course whose date does not parse. *)
Definition mixedCourses : list Kurs :=
  [Sample.august_b; Sample.past; Sample.unparseable; Sample.august_a;
   Sample.july; Sample.undated].

(** The past course and the course without a date are left out; the courses
    of August stand in the order of the collection; the planned course whose
    date does not parse is selected and is sorted by its string. *)
Example upcoming_mixed :
  upcomingKurse Sample.parseISO Sample.today Sample.compareCodeUnits mixedCourses
  = [Sample.july; Sample.august_b; Sample.august_a; Sample.unparseable].
Proof. vm_compute. reflexivity. Qed.

Lemma upcoming_sorted_stable_witness :
  (forall a b, Z.sgn (Sample.compareCodeUnits b a)
               = (- Z.sgn (Sample.compareCodeUnits a b))%Z)
  /\ (forall a b c,
        (Sample.compareCodeUnits a b <= 0)%Z ->
        (Sample.compareCodeUnits b c <= 0)%Z ->
        (Sample.compareCodeUnits a c <= 0)%Z)
  /\ (forall s, (Sample.compareCodeUnits "" s <= 0)%Z)
  /\ length (selectUpcoming Sample.parseISO Sample.today
               Sample.compareCodeUnits 5 mixedCourses) <= 5
  /\ StronglySorted
       (fun a b => (Sample.compareCodeUnits (startKey a) (startKey b) <= 0)%Z)
       (selectUpcoming Sample.parseISO Sample.today Sample.compareCodeUnits
          5 mixedCourses).
Proof.
  split; [exact Sample.compareCodeUnits_antisym|].
  split; [exact Sample.compareCodeUnits_trans|].
  split; [exact Sample.compareCodeUnits_empty|].
  pose proof (upcoming_sorted_stable Sample.parseISO Sample.today
                Sample.compareCodeUnits Sample.compareCodeUnits_antisym
                Sample.compareCodeUnits_trans Sample.compareCodeUnits_empty
                5 mixedCourses) as H.
  exact (conj (proj1 H) (proj1 (proj2 H))).
Defined.

Lemma unparseable_start_date_witness :
  startdatum_of Sample.unparseable = Some "bald"
  /\ Sample.parseISO "bald" = Js.InvalidDate
  /\ filter (isUpcoming Sample.parseISO Sample.today)
       ([Sample.july] ++ Sample.unparseable :: [Sample.past])
     = filter (isUpcoming Sample.parseISO Sample.today) [Sample.july]
       ++ (if negb (String.eqb "bald" "")
              && Js.strict_eq (status_of Sample.unparseable) "geplant"
           then [Sample.unparseable] else [])
       ++ filter (isUpcoming Sample.parseISO Sample.today) [Sample.past].
Proof.
  split; [reflexivity|]. split; [reflexivity|].
  exact (proj1 (proj2 (proj2
           (unparseable_start_date Sample.parseISO Sample.today
              Sample.compareCodeUnits [Sample.july] [Sample.past]
              Sample.unparseable "bald" eq_refl eq_refl)))).
Defined.

(** ** Loading *)

Lemma all2_isRejected {A B : Type} (p : Promise.Settled A) (q : Promise.Settled B) :
  Promise.isRejected (Promise.all2 p q)
  = Promise.isRejected p || Promise.isRejected q.
Proof.
  destruct p as [a|t1 r1], q as [b|t2 r2]; simpl; try reflexivity.
  destruct (t2 <? t1)%nat; reflexivity.
Qed.

Section LoadFacts.

Variables Dozenten Teilnehmer Raeume : Type.
Implicit Types (svc : Service Dozenten Teilnehmer Raeume) (w : World).

Lemma all5_isRejected svc :
  Promise.isRejected
    (Promise.all5 (getDozenten svc) (getTeilnehmer svc) (getRaeume svc)
                  (getKurse svc) (getAnmeldungen svc))
  = anyRejected svc.
Proof. unfold Promise.all5, anyRejected. now rewrite !all2_isRejected. Qed.

(** The state in which only the loading flag is changed. *)
Definition doneLoading (s : State) : State :=
  {| dozentenCount := dozentenCount s; teilnehmerCount := teilnehmerCount s;
     raeumeCount := raeumeCount s; kurse := kurse s;
     anmeldungen := anmeldungen s; loading := false |}.

(** The run of [loadStats] when a fetch fails: the rejection is caught,
    one line is logged and the loading flag is cleared. *)
Lemma loadStats_rejected svc w :
  anyRejected svc = true ->
  exists reason,
    loadStats svc w
    = (Eff.Normal tt,
       {| cells := doneLoading (cells w);
          console := console w ++ [("Failed to load stats:", reason)] |}).
Proof.
  intros H. rewrite <- all5_isRejected in H.
  unfold loadStats, Eff.try_finally, Eff.try_catch, Eff.bind.
  destruct (Promise.all5 _ _ _ _ _) as [v|t reason]; [discriminate H|].
  exists reason. reflexivity.
Qed.

(** The run of [loadStats] when the five fetches succeed. *)
Lemma loadStats_fulfilled svc w doz teil raeum kurs anm :
  getDozenten svc = Promise.Fulfilled doz ->
  getTeilnehmer svc = Promise.Fulfilled teil ->
  getRaeume svc = Promise.Fulfilled raeum ->
  getKurse svc = Promise.Fulfilled kurs ->
  getAnmeldungen svc = Promise.Fulfilled anm ->
  loadStats svc w
  = (Eff.Normal tt,
     {| cells := {| dozentenCount := length doz; teilnehmerCount := length teil;
                    raeumeCount := length raeum; kurse := kurs;
                    anmeldungen := anm; loading := false |};
        console := console w |}).
Proof.
  intros E1 E2 E3 E4 E5. unfold loadStats. rewrite E1, E2, E3, E4, E5.
  reflexivity.
Qed.

(** A service whose five fetches succeed with empty collections. *)
Definition emptyService : Service Dozenten Teilnehmer Raeume :=
  mkService (Promise.Fulfilled []) (Promise.Fulfilled []) (Promise.Fulfilled [])
            (Promise.Fulfilled []) (Promise.Fulfilled []).

(** C2, as the code has it. When one of the five fetches fails,
    [loadStats] ends without an exception, writes one line to the console,
    leaves the three counts and the two collections as they were before
    the load, whatever they were, and clears the loading flag.  The state
    has no cell that records the failure: after a failed first load it is
    the state after a load that succeeds with five empty collections. *)
Theorem load_failure_reported svc w :
  anyRejected svc = true ->
  fst (loadStats svc w) = Eff.Normal tt
  /\ (exists reason,
        console (snd (loadStats svc w))
        = console w ++ [("Failed to load stats:", reason)])
  /\ dozentenCount (cells (snd (loadStats svc w))) = dozentenCount (cells w)
  /\ teilnehmerCount (cells (snd (loadStats svc w))) = teilnehmerCount (cells w)
  /\ raeumeCount (cells (snd (loadStats svc w))) = raeumeCount (cells w)
  /\ kurse (cells (snd (loadStats svc w))) = kurse (cells w)
  /\ anmeldungen (cells (snd (loadStats svc w))) = anmeldungen (cells w)
  /\ loading (cells (snd (loadStats svc w))) = false
  /\ cells (snd (loadStats svc {| cells := initialState; console := console w |}))
     = cells (snd (loadStats emptyService
                     {| cells := initialState; console := console w |})).
Proof.
  intros H. destruct (loadStats_rejected svc w H) as [reason E].
  rewrite E. simpl. repeat split; try (now exists reason).
  destruct (loadStats_rejected svc
              {| cells := initialState; console := console w |} H) as [reason' E'].
  rewrite E'. reflexivity.
Qed.

(** C10. When one of the five fetches fails on the load of the component,
    the three counts are still 0 and the two collections still empty, and
    the state differs from the initial state in the loading flag only,
    which is false. *)
Theorem load_failure_frame svc :
  anyRejected svc = true ->
  cells (snd (loadStats svc {| cells := initialState; console := [] |}))
  = {| dozentenCount := 0; teilnehmerCount := 0; raeumeCount := 0;
       kurse := []; anmeldungen := []; loading := false |}
  /\ loading initialState = true.
Proof.
  intros H.
  destruct (loadStats_rejected svc {| cells := initialState; console := [] |} H)
    as [reason E].
  rewrite E. split; reflexivity.
Qed.

End LoadFacts.

Arguments doneLoading s : simpl never.

(** *** Two runs of the load *)

Module Run.

Definition start : World := {| cells := initialState; console := [] |}.

(** Four fetches succeed with data, the fetch of the courses fails. *)
Definition failing : Service unit unit unit :=
  mkService (Promise.Fulfilled [tt; tt]) (Promise.Fulfilled [tt])
            (Promise.Fulfilled [tt; tt; tt])
            (Promise.Rejected 3 "NetworkError")
            (Promise.Fulfilled [anm "1" (Some true)]).

(** The five fetches succeed with empty collections. *)
Definition empty : Service unit unit unit := emptyService unit unit unit.

(** Two fetches fail; the one that fails first is reported. *)
Definition failingTwice : Service unit unit unit :=
  mkService (Promise.Rejected 7 "Timeout") (Promise.Fulfilled [tt])
            (Promise.Fulfilled []) (Promise.Fulfilled [])
            (Promise.Rejected 2 "Forbidden").

End Run.

Example load_failing :
  loadStats Run.failing Run.start
  = (Eff.Normal tt,
     {| cells := {| dozentenCount := 0; teilnehmerCount := 0; raeumeCount := 0;
                    kurse := []; anmeldungen := []; loading := false |};
        console := [("Failed to load stats:", "NetworkError")] |}).
Proof. reflexivity. Qed.

Example load_failing_twice :
  console (snd (loadStats Run.failingTwice Run.start))
  = [("Failed to load stats:", "Forbidden")].
Proof. reflexivity. Qed.

(** C2, as stated, fails: the state after a failed load is the state after a
    load that succeeds with five empty collections, so that no state of the
    component tells a failed load from a loaded one. *)
Lemma failed_state_is_loaded_state :
  anyRejected Run.failing = true
  /\ anyRejected Run.empty = false
  /\ cells (snd (loadStats Run.failing Run.start))
     = cells (snd (loadStats Run.empty Run.start)).
Proof. repeat split. Qed.

Lemma load_failure_reported_witness :
  anyRejected Run.failing = true
  /\ fst (loadStats Run.failing Run.start) = Eff.Normal tt
  /\ kurse (cells (snd (loadStats Run.failing Run.start))) = kurse (cells Run.start)
  /\ loading (cells (snd (loadStats Run.failing Run.start))) = false.
Proof.
  pose proof (load_failure_reported unit unit unit Run.failing Run.start eq_refl) as H.
  split; [reflexivity|]. split; [exact (proj1 H)|].
  split; [exact (proj1 (proj2 (proj2 (proj2 (proj2 (proj2 H))))))|].
  exact (proj1 (proj2 (proj2 (proj2 (proj2 (proj2 (proj2 (proj2 H)))))))).
Defined.

Lemma load_failure_frame_witness :
  anyRejected Run.failing = true
  /\ cells (snd (loadStats Run.failing Run.start))
     = {| dozentenCount := 0; teilnehmerCount := 0; raeumeCount := 0;
          kurse := []; anmeldungen := []; loading := false |}.
Proof.
  split; [reflexivity|].
  exact (proj1 (load_failure_frame unit unit unit Run.failing eq_refl)).
Defined.

(* ================================================================= *)
(** * The rest of the component *)

(** ** [StatusBadge] (lines 40-53) *)

(** What the badge shows: [s.label] and the class [s.cls].  A property that
    the looked-up value does not have reads as [undefined], here [None]. *)
Record BadgeStyle : Type := mkBadge {
  label : option string;
  cls : option string
}.

(** The object literal [map]: its own properties, in the order written. *)
Definition badgeMap : list (string * BadgeStyle) :=
  [ ("geplant", mkBadge (Some "Geplant") (Some "badge-geplant"));
    ("aktiv", mkBadge (Some "Aktiv") (Some "badge-aktiv"));
    ("abgeschlossen", mkBadge (Some "Abgeschlossen") (Some "badge-abgeschlossen"));
    ("abgesagt", mkBadge (Some "Abgesagt") (Some "badge-abgesagt")) ].

Fixpoint ownProperty (props : list (string * BadgeStyle)) (key : string)
  : option BadgeStyle :=
  match props with
  | [] => None
  | (k, v) :: rest => if String.eqb k key then Some v else ownProperty rest key
  end.

Section StatusBadge.

(** The property names of [Object.prototype], which an object literal
    inherits (['constructor'], ['toString'], ...). *)
Variable onObjectPrototype : string -> bool.

(** [const s = map[status] ?? { label: status, cls: 'badge-geplant' }]:
    an own property of [map] is found first; a name inherited from
    [Object.prototype] gives a value that is not nullish and has neither a
    [label] nor a [cls]; any other name gives [undefined] and the default. *)
Definition StatusBadge (status : string) : BadgeStyle :=
  match ownProperty badgeMap status with
  | Some s => s
  | None =>
      if onObjectPrototype status then mkBadge None None
      else mkBadge (Some status) (Some "badge-geplant")
  end.

End StatusBadge.

(** ** Colours of the bars (lines 55-60 and 212-216) *)

Definition CHART_COLORS : list string :=
  [ "oklch(0.48 0.195 264)"; "oklch(0.62 0.18 264)";
    "oklch(0.55 0.14 200)"; "oklch(0.5 0.18 310)" ].

(** [statusData.map((_, idx) => CHART_COLORS[idx % CHART_COLORS.length])]:
    the [fill] of each [Cell]; an index out of the array reads as
    [undefined], here [None]. *)
Definition cellFills {A : Type} (data : list A) : list (option string) :=
  map (fun idx => nth_error CHART_COLORS (idx mod length CHART_COLORS))
      (seq 0 (length data)).

(** ** Properties of the badge *)

(** X1. For each of the four known statuses the badge shows the label the
    chart uses for that status and the class ['badge-'] followed by the
    status, whatever [Object.prototype] holds; for any other status that is
    not a property name of [Object.prototype] the badge shows the status
    itself with the class of a planned course. *)
Theorem status_badge_lookup (onObjectPrototype : string -> bool) :
  map (fun s => label (StatusBadge onObjectPrototype s)) knownStatuses
  = map Some statusLabels
  /\ map (fun s => cls (StatusBadge onObjectPrototype s)) knownStatuses
     = map (fun s => Some ("badge-" ++ s)%string) knownStatuses
  /\ (forall status,
        ~ In status knownStatuses ->
        onObjectPrototype status = false ->
        StatusBadge onObjectPrototype status
        = mkBadge (Some status) (Some "badge-geplant")).
Proof.
  split; [reflexivity|]. split; [reflexivity|].
  intros status Hnot Hp. unfold StatusBadge, badgeMap. cbn [ownProperty].
  repeat match goal with
         | |- context [String.eqb ?k status] =>
             destruct (String.eqb_spec k status) as [E|_];
             [exfalso; apply Hnot; rewrite <- E; simpl; tauto|]
         end.
  now rewrite Hp.
Qed.

(** The names [Object.prototype] has in the browsers. *)
Definition prototypeNames (s : string) : bool :=
  existsb (String.eqb s)
    [ "constructor"; "hasOwnProperty"; "isPrototypeOf"; "propertyIsEnumerable";
      "toLocaleString"; "toString"; "valueOf"; "__proto__";
      "__defineGetter__"; "__defineSetter__"; "__lookupGetter__";
      "__lookupSetter__" ].

Lemma status_badge_lookup_witness :
  ~ In "verschoben" knownStatuses
  /\ prototypeNames "verschoben" = false
  /\ StatusBadge prototypeNames "verschoben"
     = mkBadge (Some "verschoben") (Some "badge-geplant").
Proof.
  assert (H : ~ In "verschoben" knownStatuses).
  { simpl. intros [E|[E|[E|[E|[]]]]]; discriminate E. }
  split; [exact H|]. split; [reflexivity|].
  exact (proj2 (proj2 (status_badge_lookup prototypeNames)) "verschoben" H eq_refl).
Defined.

(** A status that is a property name of [Object.prototype] gives a badge
    without a label. *)
Example status_badge_inherited :
  StatusBadge prototypeNames "constructor" = mkBadge None None.
Proof. reflexivity. Qed.

(** ** Properties of the chart *)

Lemma statusData_length (courses : list Kurs) : length (statusData courses) <= 4.
Proof.
  unfold statusData.
  apply (Nat.le_trans _ _ _ (filter_length_le _ _)). simpl. lia.
Qed.

Lemma cellFills_prefix {A : Type} (data : list A) :
  length data <= 4 ->
  cellFills data = map Some (firstn (length data) CHART_COLORS).
Proof.
  unfold cellFills. generalize (length data) as n. intros n Hn.
  do 5 (destruct n as [|n]; [reflexivity|]). lia.
Qed.

Lemma CHART_COLORS_NoDup : NoDup CHART_COLORS.
Proof.
  unfold CHART_COLORS.
  repeat (constructor; [simpl; intros H; repeat (destruct H as [H|H]; try discriminate H);
                        try contradiction|]).
  constructor.
Qed.

Lemma NoDup_firstn {A : Type} (n : nat) (l : list A) : NoDup l -> NoDup (firstn n l).
Proof.
  intros H. revert n. induction H as [|x l Hx Hl IH]; intros [|n]; simpl;
    try constructor.
  - intros Hin. apply Hx. rewrite <- (firstn_skipn n l). apply in_or_app. now left.
  - apply IH.
Qed.

(** X2. The chart has at most four bars; the bars take the first colours of
    the palette in their order, one colour each, so that the index never
    wraps around and no two bars share a colour.  The colour goes with the
    position of the bar among the bars shown, not with its status. *)
Theorem chart_fills (courses : list Kurs) :
  length (statusData courses) <= length CHART_COLORS
  /\ cellFills (statusData courses)
     = map Some (firstn (length (statusData courses)) CHART_COLORS)
  /\ NoDup (cellFills (statusData courses)).
Proof.
  pose proof (statusData_length courses) as Hlen.
  split; [exact Hlen|]. split; [now apply cellFills_prefix|].
  rewrite cellFills_prefix by exact Hlen.
  apply Finite.Injective_map_NoDup.
  - intros a b E. now inversion E.
  - apply NoDup_firstn, CHART_COLORS_NoDup.
Qed.

(** With planned courses the bar of the active courses has the second
    colour, without them the first. *)
Example chart_fills_by_position :
  cellFills (statusData [kurs "1" (Some "geplant") None; kurs "2" (Some "aktiv") None])
  = [Some "oklch(0.48 0.195 264)"; Some "oklch(0.62 0.18 264)"]
  /\ cellFills (statusData [kurs "2" (Some "aktiv") None])
     = [Some "oklch(0.48 0.195 264)"].
Proof. split; reflexivity. Qed.

(** The status each label of the chart stands for. *)
Definition labelStatus : list (string * string) :=
  [ ("Geplant", "geplant"); ("Aktiv", "aktiv");
    ("Abgeschlossen", "abgeschlossen"); ("Abgesagt", "abgesagt") ].

Lemma countByStatus_pos (courses : list Kurs) (s : string) :
  0 < countByStatus courses s
  <-> exists k, In k courses /\ status_of k = Some s.
Proof.
  induction courses as [|k rest IH]; simpl.
  - split; [lia|]. intros [k [[] _]].
  - destruct (status_eq_dec (status_of k) (Some s)) as [E|E].
    + split; [|lia]. intros _. exists k. auto.
    + simpl. rewrite IH. split.
      * intros [k' [Hin Hk']]. exists k'. auto.
      * intros [k' [[<-|Hin] Hk']]; [contradiction|]. exists k'. auto.
Qed.

Lemma statusBuckets_In (courses : list Kurs) (d : Bucket) :
  In d (statusBuckets courses)
  <-> exists lbl s, In (lbl, s) labelStatus
                    /\ d = mkBucket lbl (countByStatus courses s).
Proof.
  unfold statusBuckets, geplanteKurse, aktiveKurse, abgeschlosseneKurse,
    abgesagteKurse.
  rewrite !filter_strict_eq_count. simpl. split.
  - intros [<-|[<-|[<-|[<-|[]]]]]; eexists; eexists; split;
      try reflexivity; tauto.
  - intros [lbl [s [[E|[E|[E|[E|[]]]]] ->]]]; inversion E; subst; tauto.
Qed.

(** X3. A bar with a given label is drawn if and only if some course has the
    status the label stands for, and the bar then shows the number of the
    courses with exactly that status. *)
Theorem bar_iff_status_present (courses : list Kurs) (lbl s : string) :
  In (lbl, s) labelStatus ->
  (In lbl (map name (statusData courses))
   <-> exists k, In k courses /\ status_of k = Some s)
  /\ (forall d, In d (statusData courses) -> name d = lbl ->
                value d = countByStatus courses s /\ 0 < value d).
Proof.
  intros Hpair. rewrite <- countByStatus_pos. split.
  - rewrite in_map_iff. split.
    + intros [d [Hname Hd]]. apply filter_In in Hd. destruct Hd as [Hd Hpos].
      apply statusBuckets_In in Hd. destruct Hd as [lbl' [s' [Hpair' ->]]].
      simpl in Hname, Hpos. subst lbl'. apply Nat.ltb_lt in Hpos.
      simpl in Hpair, Hpair'.
      destruct Hpair as [E|[E|[E|[E|[]]]]]; inversion E; subst;
        destruct Hpair' as [E'|[E'|[E'|[E'|[]]]]]; inversion E'; subst;
        exact Hpos.
    + intros Hpos. exists (mkBucket lbl (countByStatus courses s)).
      split; [reflexivity|]. apply filter_In. split.
      * apply statusBuckets_In. eauto.
      * now apply Nat.ltb_lt.
  - intros d Hd Hname. apply filter_In in Hd. destruct Hd as [Hd Hpos].
    apply statusBuckets_In in Hd. destruct Hd as [lbl' [s' [Hpair' ->]]].
    simpl in Hname, Hpos |- *. subst lbl'. apply Nat.ltb_lt in Hpos.
    simpl in Hpair, Hpair'.
    destruct Hpair as [E|[E|[E|[E|[]]]]]; inversion E; subst;
      destruct Hpair' as [E'|[E'|[E'|[E'|[]]]]]; inversion E'; subst;
      split; auto.
Qed.

Lemma bar_iff_status_present_witness :
  In ("Aktiv", "aktiv") labelStatus
  /\ (In "Aktiv" (map name (statusData Sample.courses))
      <-> exists k, In k Sample.courses /\ status_of k = Some "aktiv").
Proof.
  assert (H : In ("Aktiv", "aktiv") labelStatus) by (simpl; tauto).
  split; [exact H|].
  exact (proj1 (bar_iff_status_present Sample.courses "Aktiv" "aktiv" H)).
Defined.

Lemma countByStatus_Permutation (l1 l2 : list Kurs) (s : string) :
  Permutation l1 l2 -> countByStatus l1 s = countByStatus l2 s.
Proof.
  induction 1 as [|k l1 l2 _ IH|k1 k2 l|l1 l2 l3 _ IH1 _ IH2]; simpl;
    try lia; congruence.
Qed.

(** X4. The counts by status and the status distribution do not depend on
    the order of the courses in the collection. *)
Theorem statusData_Permutation (courses1 courses2 : list Kurs) :
  Permutation courses1 courses2 ->
  aktiveKurse courses1 = aktiveKurse courses2
  /\ geplanteKurse courses1 = geplanteKurse courses2
  /\ statusData courses1 = statusData courses2.
Proof.
  intros H.
  unfold statusData, statusBuckets, geplanteKurse, aktiveKurse,
    abgeschlosseneKurse, abgesagteKurse.
  rewrite !filter_strict_eq_count.
  rewrite !(countByStatus_Permutation courses1 courses2 _ H).
  repeat split.
Qed.

Lemma statusData_Permutation_witness :
  Permutation [Sample.past; Sample.july; Sample.undated]
              [Sample.undated; Sample.past; Sample.july]
  /\ statusData [Sample.past; Sample.july; Sample.undated]
     = statusData [Sample.undated; Sample.past; Sample.july].
Proof.
  assert (H : Permutation [Sample.past; Sample.july; Sample.undated]
                          [Sample.undated; Sample.past; Sample.july]).
  { apply Permutation_sym.
    apply (Permutation_cons_append [Sample.past; Sample.july] Sample.undated). }
  split; [exact H|].
  exact (proj2 (proj2 (statusData_Permutation _ _ H))).
Defined.

(** ** The chart panel (lines 195-220) *)

Inductive ChartBody : Type :=
| ChartPlaceholder                            (* 'Noch keine Kurse angelegt' *)
| BarChart (bars : list (Bucket * option string)).

Record ChartPanel : Type := mkChartPanel {
  chart_heading : nat;                        (* [{kurse.length} Kurse] *)
  chart_body : ChartBody
}.

(** [kurse.length === 0 && !loading ? <placeholder> : <BarChart data={statusData}>],
    each bar with the [fill] of its [Cell]. *)
Definition chartPanel (s : State) : ChartPanel :=
  {| chart_heading := length (kurse s);
     chart_body :=
       if (length (kurse s) =? 0)%nat && negb (loading s) then ChartPlaceholder
       else BarChart (combine (statusData (kurse s))
                              (cellFills (statusData (kurse s)))) |}.

Lemma statusData_nil_iff (courses : list Kurs) :
  statusData courses = [] <-> Forall (fun k => ~ recognized k) courses.
Proof.
  rewrite Forall_forall. split.
  - intros E k Hk [s [Hs Hst]].
    assert (Hpos : 0 < countByStatus courses s)
      by (apply countByStatus_pos; eauto).
    assert (Hin : In (mkBucket
                        (match s with
                         | "geplant" => "Geplant" | "aktiv" => "Aktiv"
                         | "abgeschlossen" => "Abgeschlossen" | _ => "Abgesagt"
                         end) (countByStatus courses s)) (statusData courses)).
    { apply filter_In. split; [|now apply Nat.ltb_lt].
      apply statusBuckets_In. simpl in Hs.
      destruct Hs as [<-|[<-|[<-|[<-|[]]]]]; eexists; eexists;
        (split; [|reflexivity]); simpl; tauto. }
    rewrite E in Hin. exact Hin.
  - intros H. destruct (statusData courses) as [|d rest] eqn:E; [reflexivity|].
    exfalso.
    assert (Hd : In d (statusData courses)) by (rewrite E; now left).
    apply filter_In in Hd. destruct Hd as [Hd Hpos].
    apply statusBuckets_In in Hd. destruct Hd as [lbl [s [Hpair ->]]].
    simpl in Hpos. apply Nat.ltb_lt, countByStatus_pos in Hpos.
    destruct Hpos as [k [Hk Hst]]. apply (H k Hk). exists s. split; [|exact Hst].
    simpl in Hpair. simpl.
    destruct Hpair as [P|[P|[P|[P|[]]]]]; inversion P; tauto.
Qed.

(** X5. Once loading is over, the placeholder of the chart is shown if and
    only if there is no course; a collection that is not empty and in which
    no course has a known status gives a chart without any bar, under a
    heading that counts all its courses. *)
Theorem chart_placeholder_iff (s : State) :
  loading s = false ->
  (chart_body (chartPanel s) = ChartPlaceholder <-> kurse s = [])
  /\ (chart_body (chartPanel s) = BarChart []
      <-> kurse s <> [] /\ Forall (fun k => ~ recognized k) (kurse s))
  /\ chart_heading (chartPanel s) = length (kurse s).
Proof.
  intros Hl. unfold chartPanel. simpl. rewrite Hl. simpl.
  rewrite andb_true_r. rewrite <- statusData_nil_iff.
  destruct (kurse s) as [|k rest] eqn:E.
  - simpl. repeat split; try congruence; try discriminate.
    intros [H _]. now contradiction H.
  - change (length (k :: rest) =? 0)%nat with false. cbv iota.
    split; [split; discriminate|]. split; [|reflexivity]. split.
    + intros H. split; [discriminate|].
      destruct (statusData (k :: rest)) as [|d ds] eqn:Ed; [reflexivity|].
      exfalso. unfold cellFills in H. simpl in H. discriminate H.
    + intros [_ ->]. reflexivity.
Qed.

Lemma chart_placeholder_iff_witness :
  loading (mkState 0 0 0 [kurs "1" (Some "Aktiv") None] [] false) = false
  /\ chart_body (chartPanel (mkState 0 0 0 [kurs "1" (Some "Aktiv") None] [] false))
     = BarChart [].
Proof.
  split; [reflexivity|].
  apply (proj1 (proj2 (chart_placeholder_iff
                         (mkState 0 0 0 [kurs "1" (Some "Aktiv") None] [] false)
                         eq_refl))).
  split; [discriminate|].
  constructor; [|constructor].
  intros [s [Hs E]]. simpl in Hs.
  destruct Hs as [<-|[<-|[<-|[<-|[]]]]]; discriminate E.
Defined.

(** ** More on the selection of upcoming courses *)

Lemma filter_all {A : Type} (f : A -> bool) (l : list A) :
  (forall x, In x l -> f x = true) -> filter f l = l.
Proof.
  induction l as [|x l IH]; simpl; intros H; [reflexivity|].
  rewrite (H x (or_introl eq_refl)). f_equal. apply IH. auto.
Qed.

Lemma subseq_filter_weaken {A : Type} (f g : A -> bool) (l : list A) :
  (forall x, f x = true -> g x = true) ->
  subseq (filter f l) (filter g l).
Proof.
  intros H. induction l as [|x l IH]; simpl; [constructor|].
  destruct (f x) eqn:Ef.
  - rewrite (H x Ef). now constructor.
  - destruct (g x); [now constructor|exact IH].
Qed.

Lemma NoDup_map_filter {A B : Type} (g : A -> B) (f : A -> bool) (l : list A) :
  NoDup (map g l) -> NoDup (map g (filter f l)).
Proof.
  induction l as [|x l IH]; simpl; intros H; [constructor|].
  inversion H as [|? ? Hx Hl]; subst.
  destruct (f x); [|now apply IH].
  simpl. constructor; [|now apply IH].
  intros Hin. apply Hx. apply in_map_iff in Hin.
  destruct Hin as [y [E Hy]]. apply filter_In in Hy.
  apply in_map_iff. exists y. tauto.
Qed.

Lemma sort_sorted_id {A : Type} (comparefn : A -> A -> Z) (l : list A) :
  StronglySorted (precedes comparefn) l -> Array.sort comparefn l = l.
Proof.
  induction 1 as [|x l Hl IH Hx]; [reflexivity|].
  simpl. rewrite IH. destruct l as [|y r]; [reflexivity|].
  simpl. inversion Hx as [|? ? Hxy _]; subst. unfold precedes in Hxy.
  destruct (Z.leb_spec (comparefn x y) 0); [reflexivity|lia].
Qed.

Lemma StronglySorted_app_inv {A : Type} (R : A -> A -> Prop) (l1 l2 : list A) :
  StronglySorted R (l1 ++ l2) ->
  forall a b, In a l1 -> In b l2 -> R a b.
Proof.
  induction l1 as [|x l1 IH]; simpl; intros H a b Ha Hb; [contradiction|].
  inversion H as [|? ? Hs Hx]; subst. destruct Ha as [<-|Ha].
  - rewrite Forall_forall in Hx. apply Hx, in_or_app. now right.
  - now apply IH.
Qed.

Section UpcomingMore.

Variable parseISO : string -> Js.Date.
Variable localeCompare : string -> string -> Z.

Lemma isUpcoming_earlier (today today' : Z) (k : Kurs) :
  (today <= today')%Z ->
  isUpcoming parseISO today' k = true -> isUpcoming parseISO today k = true.
Proof.
  intros Hle. rewrite !isUpcoming_iff.
  intros [s [Hs [Hne [[t [Ht Hlt]]|Hp]]]]; exists s; repeat split; auto.
  left. exists t. split; [exact Ht|lia].
Qed.

(** X6. As the day of reference moves on, courses only leave the list of the
    courses that pass the filter and none enters it: the courses that pass on
    a later day are, in the same order, among those that pass on an earlier
    day. *)
Theorem upcoming_shrinks_with_time (today today' : Z) (courses : list Kurs) :
  (today <= today')%Z ->
  subseq (filter (isUpcoming parseISO today') courses)
         (filter (isUpcoming parseISO today) courses)
  /\ length (filter (isUpcoming parseISO today') courses)
     <= length (filter (isUpcoming parseISO today) courses).
Proof.
  intros Hle.
  assert (H : subseq (filter (isUpcoming parseISO today') courses)
                     (filter (isUpcoming parseISO today) courses)).
  { apply subseq_filter_weaken. intros k. now apply isUpcoming_earlier. }
  split; [exact H|].
  clear Hle. induction H; simpl; lia.
Qed.

(** X7. When the record identifiers of the collection are distinct, so are
    those of the selected courses: the rows of the list have distinct keys. *)
Theorem upcoming_keys_unique (today : Z) (limit : nat) (courses : list Kurs) :
  NoDup (map Kurse.record_id courses) ->
  NoDup (map Kurse.record_id
           (selectUpcoming parseISO today localeCompare limit courses)).
Proof.
  intros H. unfold selectUpcoming, Js.slice0, upcomingSorted.
  rewrite <- firstn_map. apply NoDup_firstn.
  apply (Permutation_NoDup
           (l := map Kurse.record_id (filter (isUpcoming parseISO today) courses))).
  - apply Permutation_map, Permutation_sym, sort_Permutation.
  - now apply NoDup_map_filter.
Qed.

Section Consistent.

Hypothesis localeCompare_antisym :
  forall a b, Z.sgn (localeCompare b a) = (- Z.sgn (localeCompare a b))%Z.
Hypothesis localeCompare_trans :
  forall a b c,
    (localeCompare a b <= 0)%Z -> (localeCompare b c <= 0)%Z ->
    (localeCompare a c <= 0)%Z.

Lemma upcomingSorted_sorted (today : Z) (courses : list Kurs) :
  StronglySorted (precedes (compareStart localeCompare))
    (upcomingSorted parseISO today localeCompare courses).
Proof.
  apply sort_sorted.
  - intros a b. apply localeCompare_antisym.
  - intros a b c. apply localeCompare_trans.
Qed.

(** X8. The selection keeps the earliest start dates: no course that passes
    the filter and is left out by the cut comes, by its start date, strictly
    before a selected course. *)
Theorem upcoming_keeps_earliest (today : Z) (limit : nat) (courses : list Kurs)
    (k k' : Kurs) :
  In k (selectUpcoming parseISO today localeCompare limit courses) ->
  In k' courses ->
  isUpcoming parseISO today k' = true ->
  ~ In k' (selectUpcoming parseISO today localeCompare limit courses) ->
  (localeCompare (startKey k) (startKey k') <= 0)%Z.
Proof.
  intros Hk Hin Hup Hout.
  pose proof (upcomingSorted_sorted today courses) as HS.
  rewrite <- (firstn_skipn limit (upcomingSorted _ _ _ _)) in HS.
  apply (StronglySorted_app_inv _ _ _ HS k k'); [exact Hk|].
  assert (Hall : In k' (upcomingSorted parseISO today localeCompare courses)).
  { unfold upcomingSorted. apply sort_In, filter_In. auto. }
  rewrite <- (firstn_skipn limit (upcomingSorted _ _ _ _)) in Hall.
  apply in_app_or in Hall. destruct Hall as [Hsel|Hrest]; [|exact Hrest].
  now contradiction Hout.
Qed.

(** X9. Selecting from a selection changes nothing: the selected courses all
    pass the filter, are in order and are at most [limit]. *)
Theorem upcoming_idempotent (today : Z) (limit : nat) (courses : list Kurs) :
  selectUpcoming parseISO today localeCompare limit
    (selectUpcoming parseISO today localeCompare limit courses)
  = selectUpcoming parseISO today localeCompare limit courses.
Proof.
  set (sel := selectUpcoming parseISO today localeCompare limit courses).
  assert (Hf : filter (isUpcoming parseISO today) sel = sel).
  { apply filter_all. intros k Hk.
    apply selectUpcoming_incl in Hk. unfold upcomingSorted in Hk.
    apply sort_In, filter_In in Hk. tauto. }
  assert (Hs : StronglySorted (precedes (compareStart localeCompare)) sel).
  { apply StronglySorted_firstn, upcomingSorted_sorted. }
  unfold selectUpcoming at 1. unfold upcomingSorted. fold sel.
  rewrite Hf, (sort_sorted_id _ _ Hs).
  unfold Js.slice0. apply firstn_all2.
  unfold sel, selectUpcoming, Js.slice0. apply firstn_le_length.
Qed.

End Consistent.
End UpcomingMore.

Lemma upcoming_shrinks_with_time_witness :
  (Sample.today <= Sample.today + 86400000 * 60)%Z
  /\ subseq (filter (isUpcoming Sample.parseISO (Sample.today + 86400000 * 60)) mixedCourses)
            (filter (isUpcoming Sample.parseISO Sample.today) mixedCourses).
Proof.
  assert (H : (Sample.today <= Sample.today + 86400000 * 60)%Z) by (vm_compute; discriminate).
  split; [exact H|].
  exact (proj1 (upcoming_shrinks_with_time Sample.parseISO
                  Sample.today (Sample.today + 86400000 * 60) mixedCourses H)).
Defined.

Lemma upcoming_keys_unique_witness :
  NoDup (map Kurse.record_id mixedCourses)
  /\ NoDup (map Kurse.record_id
              (selectUpcoming Sample.parseISO Sample.today
                 Sample.compareCodeUnits 2 mixedCourses)).
Proof.
  assert (H : NoDup (map Kurse.record_id mixedCourses)).
  { simpl.
    repeat (constructor;
            [simpl; intros H; repeat (destruct H as [H|H]; try discriminate H);
             try contradiction|]).
    constructor. }
  split; [exact H|].
  exact (upcoming_keys_unique Sample.parseISO Sample.compareCodeUnits
           Sample.today 2 mixedCourses H).
Defined.

(** With a limit of two, the course of July and the first course of August
    are selected; the planned course whose date does not parse is left out,
    and its string does not come before their dates. *)
Lemma upcoming_keeps_earliest_witness :
  In Sample.august_b
     (selectUpcoming Sample.parseISO Sample.today Sample.compareCodeUnits 2 mixedCourses)
  /\ In Sample.unparseable mixedCourses
  /\ isUpcoming Sample.parseISO Sample.today Sample.unparseable = true
  /\ ~ In Sample.unparseable
        (selectUpcoming Sample.parseISO Sample.today Sample.compareCodeUnits 2 mixedCourses)
  /\ (Sample.compareCodeUnits (startKey Sample.august_b) (startKey Sample.unparseable)
      <= 0)%Z.
Proof.
  assert (H1 : In Sample.august_b
                 (selectUpcoming Sample.parseISO Sample.today
                    Sample.compareCodeUnits 2 mixedCourses))
    by (vm_compute; tauto).
  assert (H2 : In Sample.unparseable mixedCourses) by (vm_compute; tauto).
  assert (H3 : isUpcoming Sample.parseISO Sample.today Sample.unparseable = true)
    by reflexivity.
  assert (H4 : ~ In Sample.unparseable
                   (selectUpcoming Sample.parseISO Sample.today
                      Sample.compareCodeUnits 2 mixedCourses)).
  { vm_compute. intros [E|[E|[]]]; discriminate E. }
  repeat (split; [assumption|]).
  exact (upcoming_keeps_earliest Sample.parseISO Sample.compareCodeUnits
           Sample.compareCodeUnits_antisym Sample.compareCodeUnits_trans
           Sample.today 2 mixedCourses Sample.august_b Sample.unparseable
           H1 H2 H3 H4).
Defined.

Lemma upcoming_idempotent_witness :
  (forall a b, Z.sgn (Sample.compareCodeUnits b a)
               = (- Z.sgn (Sample.compareCodeUnits a b))%Z)
  /\ (forall a b c,
        (Sample.compareCodeUnits a b <= 0)%Z ->
        (Sample.compareCodeUnits b c <= 0)%Z ->
        (Sample.compareCodeUnits a c <= 0)%Z)
  /\ selectUpcoming Sample.parseISO Sample.today Sample.compareCodeUnits 5
       (selectUpcoming Sample.parseISO Sample.today Sample.compareCodeUnits 5
          mixedCourses)
     = selectUpcoming Sample.parseISO Sample.today Sample.compareCodeUnits 5
         mixedCourses.
Proof.
  split; [exact Sample.compareCodeUnits_antisym|].
  split; [exact Sample.compareCodeUnits_trans|].
  exact (upcoming_idempotent Sample.parseISO Sample.compareCodeUnits
           Sample.compareCodeUnits_antisym Sample.compareCodeUnits_trans
           Sample.today 5 mixedCourses).
Defined.

(** ** More on loading *)

(** The rejections among the fetches, each with its instant. *)
Definition rejection {A : Type} (p : Promise.Settled A) : list (nat * Error) :=
  match p with
  | Promise.Fulfilled _ => []
  | Promise.Rejected t r => [(t, r)]
  end.

(** [p] is fulfilled and [rs] is empty, or [p] is rejected with one of the
    rejections [rs], one with the least instant. *)
Definition earliestOf {A : Type} (p : Promise.Settled A) (rs : list (nat * Error)) : Prop :=
  match p with
  | Promise.Fulfilled _ => rs = []
  | Promise.Rejected t r => In (t, r) rs /\ Forall (fun tr => t <= fst tr) rs
  end.

Lemma earliestOf_rejection {A : Type} (p : Promise.Settled A) :
  earliestOf p (rejection p).
Proof.
  destruct p as [v|t r]; simpl; [reflexivity|].
  split; [now left|]. constructor; [simpl; lia|constructor].
Qed.

Lemma earliestOf_all2 {A B : Type} (p : Promise.Settled A) (q : Promise.Settled B)
    (rs1 rs2 : list (nat * Error)) :
  earliestOf p rs1 -> earliestOf q rs2 ->
  earliestOf (Promise.all2 p q) (rs1 ++ rs2).
Proof.
  destruct p as [a|t1 r1], q as [b|t2 r2]; simpl.
  - intros -> ->. reflexivity.
  - intros -> [Hin Hall]. auto.
  - intros [Hin Hall] ->. rewrite app_nil_r. auto.
  - intros [Hin1 Hall1] [Hin2 Hall2].
    destruct (Nat.ltb_spec t2 t1) as [Hlt|Hge]; simpl.
    + split; [apply in_or_app; now right|].
      apply Forall_app. split; [|exact Hall2].
      eapply Forall_impl; [|exact Hall1]. simpl. intros tr Htr. lia.
    + split; [apply in_or_app; now left|].
      apply Forall_app. split; [exact Hall1|].
      eapply Forall_impl; [|exact Hall2]. simpl. intros tr Htr. lia.
Qed.

Section LoadMore.

Variables Dozenten Teilnehmer Raeume : Type.
Implicit Types (svc : Service Dozenten Teilnehmer Raeume) (w : World).

Definition rejections svc : list (nat * Error) :=
  (((rejection (getDozenten svc) ++ rejection (getTeilnehmer svc))
    ++ rejection (getRaeume svc))
   ++ rejection (getKurse svc))
  ++ rejection (getAnmeldungen svc).

Lemma all5_earliest svc :
  earliestOf
    (Promise.all5 (getDozenten svc) (getTeilnehmer svc) (getRaeume svc)
                  (getKurse svc) (getAnmeldungen svc))
    (rejections svc).
Proof.
  unfold Promise.all5, rejections.
  repeat apply earliestOf_all2; apply earliestOf_rejection.
Qed.

(** X10. When fetches fail, the line written to the console carries the
    reason of one of the failed fetches, one that failed at the earliest
    instant. *)
Theorem load_failure_reason svc w :
  anyRejected svc = true ->
  exists t reason,
    In (t, reason) (rejections svc)
    /\ Forall (fun tr => t <= fst tr) (rejections svc)
    /\ console (snd (loadStats svc w))
       = console w ++ [("Failed to load stats:", reason)].
Proof.
  intros H. rewrite <- all5_isRejected in H.
  pose proof (all5_earliest svc) as He.
  unfold loadStats, Eff.try_finally, Eff.try_catch, Eff.bind.
  destruct (Promise.all5 _ _ _ _ _) as [v|t reason]; [discriminate H|].
  simpl in He. destruct He as [Hin Hall].
  exists t, reason. repeat split; assumption.
Qed.

Lemma anyRejected_false svc :
  anyRejected svc = false ->
  exists doz teil raeum kurs anm,
    svc = mkService (Promise.Fulfilled doz) (Promise.Fulfilled teil)
                    (Promise.Fulfilled raeum) (Promise.Fulfilled kurs)
                    (Promise.Fulfilled anm).
Proof.
  destruct svc as [[doz|? ?] [teil|? ?] [raeum|? ?] [kurs|? ?] [anm|? ?]];
    unfold anyRejected; simpl; intros H; try discriminate H.
  now exists doz, teil, raeum, kurs, anm.
Qed.

(** X11. When no fetch fails, [loadStats] ends without an exception, writes
    nothing to the console and sets the six cells to the three lengths, the
    two collections and a cleared loading flag, whatever the cells held
    before. *)
Theorem load_success svc w :
  anyRejected svc = false ->
  exists doz teil raeum kurs anm,
    getDozenten svc = Promise.Fulfilled doz
    /\ getTeilnehmer svc = Promise.Fulfilled teil
    /\ getRaeume svc = Promise.Fulfilled raeum
    /\ getKurse svc = Promise.Fulfilled kurs
    /\ getAnmeldungen svc = Promise.Fulfilled anm
    /\ loadStats svc w
       = (Eff.Normal tt,
          {| cells := {| dozentenCount := length doz;
                         teilnehmerCount := length teil;
                         raeumeCount := length raeum; kurse := kurs;
                         anmeldungen := anm; loading := false |};
             console := console w |}).
Proof.
  intros H. destruct (anyRejected_false svc H) as [doz [teil [raeum [kurs [anm ->]]]]].
  exists doz, teil, raeum, kurs, anm. repeat split.
Qed.

(** X12. Every run of [loadStats] ends without an exception and with the
    loading flag cleared, and adds at most one line to the console, none
    exactly when no fetch fails. *)
Theorem load_always_completes svc w :
  fst (loadStats svc w) = Eff.Normal tt
  /\ loading (cells (snd (loadStats svc w))) = false
  /\ exists lines,
       console (snd (loadStats svc w)) = console w ++ lines
       /\ length lines <= 1
       /\ (lines = [] <-> anyRejected svc = false).
Proof.
  destruct (anyRejected svc) eqn:H.
  - destruct (loadStats_rejected _ _ _ svc w H) as [reason E]. rewrite E. simpl.
    repeat split. exists [("Failed to load stats:", reason)].
    repeat split; auto; discriminate.
  - destruct (anyRejected_false svc H) as [doz [teil [raeum [kurs [anm ->]]]]].
    simpl. repeat split. exists []. rewrite app_nil_r.
    repeat split; auto.
Qed.

(** X13. A load that succeeds after a failed one gives the state of the
    successful load alone, and a load that fails after a successful one
    leaves the state of the successful load as it is. *)
Theorem load_retry (good bad : Service Dozenten Teilnehmer Raeume) w :
  anyRejected good = false ->
  anyRejected bad = true ->
  cells (snd (loadStats good (snd (loadStats bad w))))
  = cells (snd (loadStats good w))
  /\ cells (snd (loadStats bad (snd (loadStats good w))))
     = cells (snd (loadStats good w)).
Proof.
  intros Hg Hb.
  destruct (anyRejected_false good Hg) as [doz [teil [raeum [kurs [anm ->]]]]].
  split.
  - reflexivity.
  - destruct (loadStats_rejected _ _ _ bad
                (snd (loadStats (mkService (Promise.Fulfilled doz)
                                   (Promise.Fulfilled teil) (Promise.Fulfilled raeum)
                                   (Promise.Fulfilled kurs) (Promise.Fulfilled anm)) w))
                Hb) as [reason E].
    rewrite E. reflexivity.
Qed.

End LoadMore.

Arguments rejections {Dozenten Teilnehmer Raeume} svc.

Lemma load_failure_reason_witness :
  anyRejected Run.failingTwice = true
  /\ exists t reason,
       In (t, reason) (rejections Run.failingTwice)
       /\ Forall (fun tr => t <= fst tr) (rejections Run.failingTwice)
       /\ console (snd (loadStats Run.failingTwice Run.start))
          = console Run.start ++ [("Failed to load stats:", reason)].
Proof.
  split; [reflexivity|].
  exact (load_failure_reason unit unit unit Run.failingTwice Run.start eq_refl).
Defined.

(** The five fetches succeed with data. *)
Definition loaded : Service unit unit unit :=
  mkService (Promise.Fulfilled [tt; tt]) (Promise.Fulfilled [tt])
            (Promise.Fulfilled [tt; tt; tt])
            (Promise.Fulfilled mixedCourses)
            (Promise.Fulfilled [anm "1" (Some true); anm "2" None]).

Lemma load_success_witness :
  anyRejected loaded = false
  /\ exists doz teil raeum kurs anm,
       getDozenten loaded = Promise.Fulfilled doz
       /\ getTeilnehmer loaded = Promise.Fulfilled teil
       /\ getRaeume loaded = Promise.Fulfilled raeum
       /\ getKurse loaded = Promise.Fulfilled kurs
       /\ getAnmeldungen loaded = Promise.Fulfilled anm
       /\ loadStats loaded Run.start
          = (Eff.Normal tt,
             {| cells := {| dozentenCount := length doz;
                            teilnehmerCount := length teil;
                            raeumeCount := length raeum; kurse := kurs;
                            anmeldungen := anm; loading := false |};
                console := console Run.start |}).
Proof.
  split; [reflexivity|].
  exact (load_success unit unit unit loaded Run.start eq_refl).
Defined.

Lemma load_retry_witness :
  anyRejected loaded = false
  /\ anyRejected Run.failing = true
  /\ cells (snd (loadStats loaded (snd (loadStats Run.failing Run.start))))
     = cells (snd (loadStats loaded Run.start))
  /\ cells (snd (loadStats Run.failing (snd (loadStats loaded Run.start))))
     = cells (snd (loadStats loaded Run.start)).
Proof.
  split; [reflexivity|]. split; [reflexivity|].
  exact (load_retry unit unit unit loaded Run.failing Run.start eq_refl eq_refl).
Defined.

(* ================================================================= *)
(** ** What the component renders (lines 118-295) *)

(** A displayed [string | number]. *)
Inductive Shown : Type :=
| ShownText (s : string)
| ShownNumber (n : nat).

(** The dash shown in place of a value. *)
Definition dash : string := "—".

(** [`${n}`] for a count. *)
Definition toString (n : nat) : string :=
  NilEmpty.string_of_uint (Nat.to_uint n).

Module KpiCard.
(** [KpiCardProps] without the icon. *)
Record Props : Type := mk {
  title : string;
  value : Shown;
  sub : option string;
  colorClass : string;
  iconColorClass : string
}.
End KpiCard.

(** The three figures of the hero (lines 129-144). *)
Record Hero : Type := mkHero {
  hero_kurse : Shown;
  hero_anmeldungen : Shown;
  hero_bezahlt : Shown
}.

Definition hero (s : State) : Hero :=
  {| hero_kurse :=
       if loading s then ShownText dash else ShownNumber (length (kurse s));
     hero_anmeldungen :=
       if loading s then ShownText dash else ShownNumber (length (anmeldungen s));
     hero_bezahlt :=
       if loading s then ShownText dash
       else ShownNumber (bezahltCount (anmeldungen s)) |}.

(** The five cards of the grid (lines 149-190). *)
Definition kpiCards (s : State) : list KpiCard.Props :=
  [ KpiCard.mk "Dozenten"
      (if loading s then ShownText dash else ShownNumber (dozentenCount s))
      (Some "Lehrpersonal") "stat-card-indigo" "icon-indigo";
    KpiCard.mk "Teilnehmer"
      (if loading s then ShownText dash else ShownNumber (teilnehmerCount s))
      (Some "Registriert") "stat-card-teal" "icon-teal";
    KpiCard.mk "Räume"
      (if loading s then ShownText dash else ShownNumber (raeumeCount s))
      (Some "Verfügbar") "stat-card-violet" "icon-violet";
    KpiCard.mk "Aktive Kurse"
      (if loading s then ShownText dash else ShownNumber (aktiveKurse (kurse s)))
      (Some (toString (geplanteKurse (kurse s)) ++ " geplant")%string)
      "stat-card-amber" "icon-amber";
    KpiCard.mk "Bezahlt"
      (if loading s then ShownText dash
       else ShownText (toString (bezahltCount (anmeldungen s)) ++ "/"
                       ++ toString (length (anmeldungen s)))%string)
      (Some (toString (offenCount (anmeldungen s)) ++ " ausstehend")%string)
      "stat-card-emerald" "icon-emerald" ].

(** A row of the list of upcoming courses (lines 238-251), without the
    price, which the model of a course does not have. *)
Record Row : Type := mkRow {
  row_key : string;
  row_titel : string;
  row_date : string;
  row_badge : option BadgeStyle
}.

Inductive UpcomingBody : Type :=
| UpcomingPlaceholder                         (* 'Keine kommenden Kurse' *)
| Rows (rows : list Row).

Record View : Type := mkView {
  view_hero : Hero;
  view_cards : list KpiCard.Props;
  view_chart : ChartPanel;
  view_upcoming : UpcomingBody;
  view_payment : option PaymentTiles
}.

Section Render.

Variable parseISO : string -> Js.Date.
Variable today : Z.
Variable localeCompare : string -> string -> Z.
Variable onObjectPrototype : string -> bool.

(** The text [format(date, 'dd. MMMM yyyy', { locale: de })] gives for the
    date of a time value. *)
Variable formatValid : Z -> string.

(** [format] of date-fns throws a [RangeError] on the Invalid Date. *)
Definition format (date : Js.Date) : Eff.Completion string :=
  match date with
  | Js.InvalidDate => Eff.Throw "RangeError: Invalid time value"
  | Js.TimeValue t => Eff.Normal (formatValid t)
  end.

(** The date of a row:
    [k.fields.startdatum ? format(parseISO(k.fields.startdatum), ...) : '—'] *)
Definition rowDate (k : Kurs) : Eff.Completion string :=
  match startdatum_of k with
  | None => Eff.Normal dash
  | Some s => if String.eqb s "" then Eff.Normal dash else format (parseISO s)
  end.

(** The badge of a row: [k.fields.status && <StatusBadge status={...} />] *)
Definition rowBadge (k : Kurs) : option BadgeStyle :=
  match status_of k with
  | None => None
  | Some s =>
      if String.eqb s "" then None else Some (StatusBadge onObjectPrototype s)
  end.

Definition renderRow (k : Kurs) : Eff.Completion Row :=
  match rowDate k with
  | Eff.Throw e => Eff.Throw e
  | Eff.Normal date =>
      Eff.Normal {| row_key := Kurse.record_id k;
                    row_titel := Js.nullish (Kurse.titel (Kurse.fields k)) dash;
                    row_date := date;
                    row_badge := rowBadge k |}
  end.

(** [upcomingKurse.map(k => <div key={k.record_id}> ... </div>)]: the rows
    are made in order and the first exception ends the rendering. *)
Fixpoint renderRows (selection : list Kurs) : Eff.Completion (list Row) :=
  match selection with
  | [] => Eff.Normal []
  | k :: rest =>
      match renderRow k with
      | Eff.Throw e => Eff.Throw e
      | Eff.Normal row =>
          match renderRows rest with
          | Eff.Throw e => Eff.Throw e
          | Eff.Normal rows => Eff.Normal (row :: rows)
          end
      end
  end.

(** [upcomingKurse.length === 0 && !loading ? <placeholder> : <rows>] *)
Definition upcomingPanel (s : State) : Eff.Completion UpcomingBody :=
  let selection := upcomingKurse parseISO today localeCompare (kurse s) in
  if (length selection =? 0)%nat && negb (loading s)
  then Eff.Normal UpcomingPlaceholder
  else
    match renderRows selection with
    | Eff.Throw e => Eff.Throw e
    | Eff.Normal rows => Eff.Normal (Rows rows)
    end.

(** The body of the component after its hooks. *)
Definition render (s : State) : Eff.Completion View :=
  match upcomingPanel s with
  | Eff.Throw e => Eff.Throw e
  | Eff.Normal upcoming =>
      Eff.Normal {| view_hero := hero s;
                    view_cards := kpiCards s;
                    view_chart := chartPanel s;
                    view_upcoming := upcoming;
                    view_payment := paymentSummary (anmeldungen s) |}
  end.

End Render.

(** ** Properties of the rendering *)

Section RenderFacts.

Variable parseISO : string -> Js.Date.
Variable today : Z.
Variable localeCompare : string -> string -> Z.
Variable onObjectPrototype : string -> bool.
Variable formatValid : Z -> string.

(** A planned course with a start date that is not empty and does not
    parse. *)
Definition plannedUnparseable (k : Kurs) : Prop :=
  exists str, startdatum_of k = Some str /\ str <> ""
              /\ parseISO str = Js.InvalidDate
              /\ status_of k = Some "geplant".

Lemma rowDate_throws (k : Kurs) :
  isUpcoming parseISO today k = true ->
  (exists e, rowDate parseISO formatValid k = Eff.Throw e)
  <-> plannedUnparseable k.
Proof.
  unfold isUpcoming, rowDate, plannedUnparseable, format.
  destruct (startdatum_of k) as [s|]; [|discriminate].
  destruct (String.eqb_spec s "") as [E|E]; [discriminate|].
  cbv zeta. destruct (parseISO s) as [|t] eqn:Ep; simpl.
  - rewrite strict_eq_iff. intros Hst. split.
    + intros _. exists s. auto.
    + intros _. eexists. reflexivity.
  - intros _. split.
    + intros [e He]. discriminate He.
    + intros [s' [Hs [_ [Hinv _]]]]. inversion Hs; subst. congruence.
Qed.

Lemma renderRow_throws (k : Kurs) :
  (exists e, renderRow parseISO onObjectPrototype formatValid k = Eff.Throw e)
  <-> (exists e, rowDate parseISO formatValid k = Eff.Throw e).
Proof.
  unfold renderRow. destruct (rowDate parseISO formatValid k) as [d|e].
  - split; intros [e He]; discriminate He.
  - split; intros _; now exists e.
Qed.

Lemma renderRows_throws (selection : list Kurs) :
  (exists e, renderRows parseISO onObjectPrototype formatValid selection = Eff.Throw e)
  <-> exists k, In k selection
                /\ exists e, renderRow parseISO onObjectPrototype formatValid k
                             = Eff.Throw e.
Proof.
  induction selection as [|k rest IH]; simpl.
  - split; [intros [e He]; discriminate He|intros [k [[] _]]].
  - destruct (renderRow parseISO onObjectPrototype formatValid k) as [row|e] eqn:Ek.
    + destruct (renderRows parseISO onObjectPrototype formatValid rest) as [rows|e].
      * split; [intros [e He]; discriminate He|].
        intros [k' [[<-|Hin] [e He]]]; [congruence|].
        assert (Hex : exists k0, In k0 rest
                       /\ exists e0, renderRow parseISO onObjectPrototype
                                       formatValid k0 = Eff.Throw e0)
          by (exists k'; eauto).
        apply IH in Hex. destruct Hex as [e' He']. discriminate He'.
      * split; [|intros _; now exists e].
        intros _.
        assert (Hex : exists e0, @Eff.Throw (list Row) e = Eff.Throw e0)
          by now exists e.
        apply IH in Hex. destruct Hex as [k' [Hin He']]. exists k'. auto.
    + split; [|intros _; now exists e].
      intros _. exists k. split; [now left|]. now exists e.
Qed.

Lemma upcomingKurse_passes (courses : list Kurs) (k : Kurs) :
  In k (upcomingKurse parseISO today localeCompare courses) ->
  isUpcoming parseISO today k = true.
Proof.
  intros H. apply selectUpcoming_incl in H. unfold upcomingSorted in H.
  apply sort_In, filter_In in H. tauto.
Qed.

(** X14. The rendering throws if and only if one of the selected courses is
    a planned course whose start date does not parse: the date of its row is
    formatted without a check, and [format] rejects the Invalid Date.  With
    no such course among the selected ones the component renders. *)
Theorem render_throws_iff (s : State) :
  (exists e, render parseISO today localeCompare onObjectPrototype formatValid s
             = Eff.Throw e)
  <-> exists k, In k (upcomingKurse parseISO today localeCompare (kurse s))
                /\ plannedUnparseable k.
Proof.
  unfold render, upcomingPanel. cbv zeta.
  set (selection := upcomingKurse parseISO today localeCompare (kurse s)).
  assert (Hrows :
    (exists e, renderRows parseISO onObjectPrototype formatValid selection
               = Eff.Throw e)
    <-> exists k, In k selection /\ plannedUnparseable k).
  { rewrite renderRows_throws. split.
    - intros [k [Hin He]]. exists k. split; [exact Hin|].
      apply renderRow_throws in He.
      apply rowDate_throws; [|exact He].
      now apply upcomingKurse_passes with (kurse s).
    - intros [k [Hin Hk]]. exists k. split; [exact Hin|].
      apply renderRow_throws. apply rowDate_throws; [|exact Hk].
      now apply upcomingKurse_passes with (kurse s). }
  destruct ((length selection =? 0)%nat && negb (loading s)) eqn:Eg.
  - apply andb_true_iff in Eg. destruct Eg as [Elen _].
    apply Nat.eqb_eq in Elen. destruct selection; [|discriminate Elen].
    split; [intros [e He]; discriminate He|intros [k [[] _]]].
  - rewrite <- Hrows.
    destruct (renderRows parseISO onObjectPrototype formatValid selection)
      as [rows|e].
    + split; intros [e He]; discriminate He.
    + split; intros _; now exists e.
Qed.

Lemma renderRows_dated (selection : list Kurs) (rows : list Row) :
  (forall k, In k selection -> isUpcoming parseISO today k = true) ->
  renderRows parseISO onObjectPrototype formatValid selection = Eff.Normal rows ->
  Forall2 (fun k row =>
             row_key row = Kurse.record_id k
             /\ row_badge row = rowBadge onObjectPrototype k
             /\ exists str t,
                  startdatum_of k = Some str /\ parseISO str = Js.TimeValue t
                  /\ row_date row = formatValid t)
          selection rows.
Proof.
  revert rows. induction selection as [|k rest IH]; simpl; intros rows Hall H.
  - inversion H. constructor.
  - destruct (renderRow parseISO onObjectPrototype formatValid k) as [row|e] eqn:Ek;
      [|discriminate H].
    destruct (renderRows parseISO onObjectPrototype formatValid rest) as [rows'|e];
      [|discriminate H].
    inversion H; subst. constructor; [|apply IH; auto].
    specialize (Hall k (or_introl eq_refl)).
    unfold renderRow, rowDate, format in Ek. unfold isUpcoming in Hall.
    destruct (startdatum_of k) as [str|]; [|discriminate Hall].
    destruct (String.eqb str ""); [discriminate Hall|].
    destruct (parseISO str) as [|t] eqn:Ep; [discriminate Ek|].
    inversion Ek; subst. simpl. repeat split. now exists str, t.
Qed.

(** X15. When the component renders a list of rows, the rows are those of
    the selected courses in their order, each with the record identifier of
    its course as key and with the formatted date of its start date: the
    dash that stands for a missing date is never shown in a row. *)
Theorem rendered_rows (s : State) (v : View) (rows : list Row) :
  render parseISO today localeCompare onObjectPrototype formatValid s
  = Eff.Normal v ->
  view_upcoming v = Rows rows ->
  Forall2 (fun k row =>
             row_key row = Kurse.record_id k
             /\ row_badge row = rowBadge onObjectPrototype k
             /\ exists str t,
                  startdatum_of k = Some str /\ parseISO str = Js.TimeValue t
                  /\ row_date row = formatValid t)
          (upcomingKurse parseISO today localeCompare (kurse s)) rows.
Proof.
  unfold render, upcomingPanel. cbv zeta.
  set (selection := upcomingKurse parseISO today localeCompare (kurse s)).
  intros Hr Hv.
  destruct ((length selection =? 0)%nat && negb (loading s)).
  - inversion Hr; subst. simpl in Hv. discriminate Hv.
  - destruct (renderRows parseISO onObjectPrototype formatValid selection)
      as [rows'|e] eqn:Er; [|discriminate Hr].
    inversion Hr; subst. simpl in Hv. inversion Hv; subst.
    apply renderRows_dated; [|exact Er].
    intros k Hk. now apply upcomingKurse_passes with (kurse s).
Qed.

Section AfterLoad.

Variables Dozenten Teilnehmer Raeume : Type.
Implicit Types (svc : Service Dozenten Teilnehmer Raeume) (w : World).

(** X16. After a first load in which a fetch fails the component renders,
    without an exception, an empty dashboard and no sign of the failure:
    zeros in the hero and in the cards, the two placeholders for no course
    and no upcoming course, and no payment block. *)
Theorem view_after_failed_load svc :
  anyRejected svc = true ->
  exists v,
    render parseISO today localeCompare onObjectPrototype formatValid
      (cells (snd (loadStats svc {| cells := initialState; console := [] |})))
    = Eff.Normal v
    /\ view_hero v = mkHero (ShownNumber 0) (ShownNumber 0) (ShownNumber 0)
    /\ map KpiCard.value (view_cards v)
       = [ShownNumber 0; ShownNumber 0; ShownNumber 0; ShownNumber 0;
          ShownText "0/0"]
    /\ view_chart v = mkChartPanel 0 ChartPlaceholder
    /\ view_upcoming v = UpcomingPlaceholder
    /\ view_payment v = None.
Proof.
  intros H.
  destruct (loadStats_rejected _ _ _ svc {| cells := initialState; console := [] |} H)
    as [reason E].
  rewrite E. eexists. split; [reflexivity|]. repeat split.
Qed.

(** X17. After a load in which no fetch fails, the hero and the cards show
    the numbers of the fetched records: the lengths of the five collections,
    the number of active courses and the paid registrations out of all; the
    heading of the chart counts the fetched courses and the payment block is
    that of the fetched registrations. *)
Theorem view_after_load svc w :
  anyRejected svc = false ->
  exists doz teil raeum kurs anm,
    svc = mkService (Promise.Fulfilled doz) (Promise.Fulfilled teil)
                    (Promise.Fulfilled raeum) (Promise.Fulfilled kurs)
                    (Promise.Fulfilled anm)
    /\ hero (cells (snd (loadStats svc w)))
       = mkHero (ShownNumber (length kurs)) (ShownNumber (length anm))
                (ShownNumber (bezahltCount anm))
    /\ map KpiCard.value (kpiCards (cells (snd (loadStats svc w))))
       = [ShownNumber (length doz); ShownNumber (length teil);
          ShownNumber (length raeum); ShownNumber (aktiveKurse kurs);
          ShownText (toString (bezahltCount anm) ++ "/"
                     ++ toString (length anm))%string]
    /\ chart_heading (chartPanel (cells (snd (loadStats svc w)))) = length kurs
    /\ paymentSummary (anmeldungen (cells (snd (loadStats svc w))))
       = paymentSummary anm.
Proof.
  intros H. destruct (anyRejected_false _ _ _ svc H)
    as [doz [teil [raeum [kurs [anm ->]]]]].
  exists doz, teil, raeum, kurs, anm. repeat split.
Qed.

End AfterLoad.
End RenderFacts.

(** *** Runs of the rendering *)

Module SampleView.

(** The texts [format] gives for the dates of the runs. *)
Definition formatValid (t : Z) : string :=
  if (t =? 1714521600000)%Z then "01. Mai 2024"
  else if (t =? 1719792000000)%Z then "01. Juli 2024"
  else if (t =? 1723680000000)%Z then "15. August 2024"
  else "".

(** A loaded state whose courses all have a start date that parses. *)
Definition dated : State :=
  mkState 2 1 3 [Sample.august_a; Sample.past; Sample.july] [] false.

(** A loaded state with the planned course whose start date does not
    parse. *)
Definition undatable : State :=
  mkState 2 1 3 mixedCourses [] false.

Definition datedRows : list Row :=
  [ mkRow "2" dash "01. Juli 2024" (Some (mkBadge (Some "Aktiv") (Some "badge-aktiv")));
    mkRow "4" dash "15. August 2024"
          (Some (mkBadge (Some "Geplant") (Some "badge-geplant"))) ].

End SampleView.

Example render_dated :
  exists v,
    render Sample.parseISO Sample.today Sample.compareCodeUnits prototypeNames
      SampleView.formatValid SampleView.dated = Eff.Normal v
    /\ view_upcoming v = Rows SampleView.datedRows.
Proof. eexists. split; vm_compute; reflexivity. Qed.

Example render_undatable :
  render Sample.parseISO Sample.today Sample.compareCodeUnits prototypeNames
    SampleView.formatValid SampleView.undatable
  = Eff.Throw "RangeError: Invalid time value".
Proof. vm_compute. reflexivity. Qed.

Lemma rendered_rows_witness :
  exists v,
    render Sample.parseISO Sample.today Sample.compareCodeUnits prototypeNames
      SampleView.formatValid SampleView.dated = Eff.Normal v
    /\ view_upcoming v = Rows SampleView.datedRows
    /\ Forall2 (fun k row =>
                  row_key row = Kurse.record_id k
                  /\ row_badge row = rowBadge prototypeNames k
                  /\ exists str t,
                       startdatum_of k = Some str
                       /\ Sample.parseISO str = Js.TimeValue t
                       /\ row_date row = SampleView.formatValid t)
               (upcomingKurse Sample.parseISO Sample.today Sample.compareCodeUnits
                  (kurse SampleView.dated))
               SampleView.datedRows.
Proof.
  eexists. split; [vm_compute; reflexivity|]. split; [reflexivity|].
  eapply (rendered_rows Sample.parseISO Sample.today Sample.compareCodeUnits
            prototypeNames SampleView.formatValid SampleView.dated).
  - vm_compute. reflexivity.
  - reflexivity.
Defined.

Lemma view_after_failed_load_witness :
  anyRejected Run.failing = true
  /\ exists v,
       render Sample.parseISO Sample.today Sample.compareCodeUnits prototypeNames
         SampleView.formatValid
         (cells (snd (loadStats Run.failing {| cells := initialState; console := [] |})))
       = Eff.Normal v
       /\ view_upcoming v = UpcomingPlaceholder
       /\ view_payment v = None.
Proof.
  split; [reflexivity|].
  destruct (view_after_failed_load Sample.parseISO Sample.today
              Sample.compareCodeUnits prototypeNames SampleView.formatValid
              unit unit unit Run.failing eq_refl)
    as [v [E [_ [_ [_ [Hu Hp]]]]]].
  exists v. auto.
Defined.

Lemma view_after_load_witness :
  anyRejected loaded = false
  /\ hero (cells (snd (loadStats loaded Run.start)))
     = mkHero (ShownNumber 6) (ShownNumber 2) (ShownNumber 1)
  /\ map KpiCard.value (kpiCards (cells (snd (loadStats loaded Run.start))))
     = [ShownNumber 2; ShownNumber 1; ShownNumber 3; ShownNumber 3;
        ShownText "1/2"].
Proof.
  split; [reflexivity|].
  destruct (view_after_load unit unit unit loaded Run.start eq_refl)
    as [doz [teil [raeum [kurs [anm [E [Hh [Hc _]]]]]]]].
  inversion E; subst. split; [exact Hh|exact Hc].
Defined.
